(** * The RRC drilling-permit decoder of [parse_rrc.py]

    A shallow embedding of the fixed-width record decoder: the layout
    registry [RECORD_MAPS], the line decoder [parse_line], the
    implied-decimal normaliser [format_implied_decimal] and the loop of
    [process_file] that assembles permits and their child segments.

    Python values are modelled as follows.
    - [str] is [string]; a character is one of the 256 code points that
      the file yields ([open (..., encoding='latin-1')] maps every byte
      to the code point of the same number).
    - [int] is [Z]; slices follow Python's rules for negative and
      out-of-range bounds.
    - a [dict] keyed by strings is a [gmap string _]; [d.update (e)] is
      the left-biased union [e ∪ d]; a dict is truthy when it is not [∅].
    - [defaultdict (int)] is a [gmap string nat] read with default [0]. *)

From Stdlib Require Import ZArith Ascii String.
From stdpp Require Import gmap strings list fin_maps sorting.

Local Open Scope Z_scope.

(** ** Characters and strings *)

Module PyStr.

(** [str.isspace] on one character, for code points below 256:
    TAB..CR, FS..US, SPACE, NEL and NBSP. *)
Definition isspace (c : ascii) : bool :=
  let n := nat_of_ascii c in
  ((9 <=? n)%nat && (n <=? 13)%nat)
  || ((28 <=? n)%nat && (n <=? 32)%nat)
  || (n =? 133)%nat || (n =? 160)%nat.

(** [str.isdigit] on one character, for code points below 256: the
    ASCII digits and the superscripts two, three and one. *)
Definition char_isdigit (c : ascii) : bool :=
  let n := nat_of_ascii c in
  ((48 <=? n)%nat && (n <=? 57)%nat)
  || (n =? 178)%nat || (n =? 179)%nat || (n =? 185)%nat.

(** The ASCII digits ['0'] .. ['9']. *)
Definition is_ascii_digit (c : ascii) : bool :=
  let n := nat_of_ascii c in (48 <=? n)%nat && (n <=? 57)%nat.

Fixpoint all_chars (p : ascii → bool) (s : string) : bool :=
  match s with
  | EmptyString => true
  | String c s' => p c && all_chars p s'
  end.

(** [s.isdigit ()]: at least one character, and all of them digits. *)
Definition isdigit (s : string) : bool :=
  match s with
  | EmptyString => false
  | _ => all_chars char_isdigit s
  end.

(** [s.replace (c, '')] for a one-character [c]: every occurrence of
    [c] is deleted. *)
Fixpoint remove_char (c : ascii) (s : string) : string :=
  match s with
  | EmptyString => EmptyString
  | String d s' =>
      if Ascii.eqb d c then remove_char c s' else String d (remove_char c s')
  end.

(** [s.startswith (c)] for a one-character [c]. *)
Definition startswith_char (c : ascii) (s : string) : bool :=
  match s with
  | String d _ => Ascii.eqb d c
  | EmptyString => false
  end.

(** The truth value of a string: [false] exactly for [''].  *)
Definition truthy (s : string) : bool :=
  match s with
  | EmptyString => false
  | String _ _ => true
  end.

Definition len (s : string) : Z := Z.of_nat (String.length s).

(** A slice bound brought into [0, n], as [PySlice_AdjustIndices]
    does for step 1. *)
Definition adjust_index (n i : Z) : Z :=
  if i <? 0 then Z.max 0 (i + n) else Z.min i n.

(** [s[lo:hi]]; an omitted bound is [None]. *)
Definition slice (s : string) (lo hi : option Z) : string :=
  let n := len s in
  let a := from_option (adjust_index n) 0 lo in
  let b := from_option (adjust_index n) n hi in
  substring (Z.to_nat a) (Z.to_nat (b - a)) s.

(** [s.lstrip (chars)] and [s.rstrip (chars)], with the set of
    characters to drop given as a predicate. *)
Fixpoint lstrip_by (p : ascii → bool) (s : string) : string :=
  match s with
  | EmptyString => EmptyString
  | String c s' => if p c then lstrip_by p s' else s
  end.

Fixpoint rstrip_by (p : ascii → bool) (s : string) : string :=
  match s with
  | EmptyString => EmptyString
  | String c s' =>
      match rstrip_by p s' with
      | EmptyString => if p c then EmptyString else String c EmptyString
      | r => String c r
      end
  end.

(** [s.strip ()] drops white space on both sides. *)
Definition strip (s : string) : string := rstrip_by isspace (lstrip_by isspace s).

(** [c * n] for a one-character [c]. *)
Fixpoint repeat_char (c : ascii) (n : nat) : string :=
  match n with
  | O => EmptyString
  | S n' => String c (repeat_char c n')
  end.

(** [s.ljust (width, fillchar)]. *)
Definition ljust (s : string) (width : Z) (fillchar : ascii) : string :=
  s +:+ repeat_char fillchar (Z.to_nat (width - len s)).

End PyStr.

Import PyStr.

(** ** Configuration *)

Definition RECORD_LENGTH : Z := 510.

(** ** The implied-decimal normaliser *)

Definition format_implied_decimal (value : string) (integer_part_len : Z) : string :=
  if negb (truthy value)
     || negb (isdigit (remove_char "." (remove_char "-" value)))
  then value
  else
    let is_negative := startswith_char "-" value in
    let value := if is_negative then slice value (Some 1) None else value in
    let formatted_value :=
      if len value <=? integer_part_len then value
      else slice value None (Some integer_part_len) +:+ "."
           +:+ slice value (Some integer_part_len) None in
    if is_negative then "-" +:+ formatted_value else formatted_value.

(** ** The layout registry *)

(** One field of a layout: [(name, start, length)]. *)
Abbreviation layout := (list (string * Z * Z)).

Definition layout_01 : layout :=
  [ ("RRC_TAPE_RECORD_ID", 0, 2);
    ("DA_STATUS_NUMBER", 2, 7);
    ("DA_STATUS_SEQUENCE_NUMBER", 9, 2);
    ("DA_COUNTY_CODE_ROOT", 11, 3);
    ("DA_LEASE_NAME_ROOT", 14, 32);
    ("DA_DISTRICT_ROOT", 46, 2);
    ("DA_OPERATOR_NUMBER_ROOT", 48, 6);
    ("DA_DATE_APP_RECEIVED", 58, 8);
    ("DA_OPERATOR_NAME", 66, 32);
    ("DA_STATUS_OF_APP_FLAG", 100, 1);
    ("DA_PERMIT_ROOT", 112, 7);
    ("DA_ISSUE_DATE", 119, 8);
    ("DA_WELL_NUMBER_ROOT", 156, 6);
    ("DA_ECAP_FILING_FLAG", 182, 1) ]%string.

Definition layout_02 : layout :=
  [ ("DA_PERMIT_NUMBER", 4, 7);
    ("DA_PERMIT_SEQUENCE_NUMBER", 11, 2);
    ("DA_PERMIT_COUNTY_CODE", 13, 3);
    ("DA_PERMIT_LEASE_NAME", 16, 32);
    ("DA_PERMIT_DISTRICT", 48, 2);
    ("DA_PERMIT_WELL_NUMBER", 50, 6);
    ("DA_PERMIT_TOTAL_DEPTH", 56, 5);
    ("DA_PERMIT_OPERATOR_NUMBER", 61, 6);
    ("DA_TYPE_APPLICATION", 67, 2);
    ("DA_RECEIVED_DATE", 123, 8);
    ("DA_PERMIT_ISSUED_DATE", 131, 8);
    ("DA_WELL_STATUS", 171, 1);
    ("DA_RULE_37_CASE_NUMBER", 230, 7);
    ("DA_OLD_SURFACE_LOCATION", 245, 52);
    ("DA_SURFACE_ACRES", 327, 8);
    ("DA_SURFACE_MILES_FROM_CITY", 335, 6);
    ("DA_SURFACE_DIRECTION_FROM_CITY", 341, 6);
    ("DA_SURFACE_NEAREST_CITY", 347, 13);
    ("DA_NEAREST_WELL", 444, 28);
    ("DA_DIRECTIONAL_WELL_FLAG", 483, 1);
    ("DA_HORIZONTAL_WELL_FLAG", 495, 1);
    ("API_NUMBER", 504, 8) ]%string.

Definition layout_03 : layout :=
  [ ("DA_FIELD_NUMBER", 2, 8);
    ("DA_FIELD_APPLICATION_WELL_CODE", 10, 1);
    ("DA_FIELD_COMPLETION_WELL_CODE", 11, 1);
    ("DA_FIELD_COMPLETION_DATE", 22, 8) ]%string.

Definition layout_06 : layout :=
  [ ("DA_CAN_RESTR_KEY", 2, 2);
    ("DA_CAN_RESTR_TYPE", 4, 2);
    ("DA_CAN_RESTR_REMARK", 6, 35);
    ("DA_CAN_RESTR_FLAG", 76, 1) ]%string.

Definition layout_08 : layout :=
  [ ("DA_FREE_RESTR_KEY", 2, 2);
    ("DA_FREE_RESTR_REMARK", 6, 70);
    ("DA_FREE_RESTR_FLAG", 76, 1) ]%string.

Definition layout_14 : layout :=
  [ ("SURFACE_LONGITUDE", 3, 12);
    ("SURFACE_LATITUDE", 15, 12) ]%string.

Definition layout_15 : layout :=
  [ ("BH_LONGITUDE", 3, 12);
    ("BH_LATITUDE", 15, 12) ]%string.

Definition RECORD_MAPS : gmap string layout :=
  list_to_map
    [ ("01", layout_01); ("02", layout_02); ("03", layout_03);
      ("06", layout_06); ("08", layout_08); ("14", layout_14);
      ("15", layout_15) ]%string.

(** ** The line decoder *)

Definition parse_line (line : string) (record_map : layout) : gmap string string :=
  fold_left
    (λ record_data '(name, start, length),
       <[name := strip (slice line (Some start) (Some (start + length)))]> record_data)
    record_map ∅.

(** ** The assembler *)

(** A value stored in a child segment: a string, or [None] when the
    parent has no [DA_STATUS_NUMBER] key ([dict.get] without default). *)
Inductive pyval : Type :=
  | VStr (s : string)
  | VNone.

Definition of_get (o : option string) : pyval :=
  match o with
  | Some s => VStr s
  | None => VNone
  end.

(** The local variables of [process_file] that the loop reads and writes. *)
Record state : Type := mkState {
  permits : list (gmap string string);
  all_fields : list (gmap string pyval);
  all_restrictions : list (gmap string pyval);
  current_permit_data : gmap string string;
  line_num : nat;
  record_counts : gmap string nat
}.

Definition init_state : state :=
  mkState [] [] [] ∅ 0 ∅.

(** Truth value of a dict: [false] exactly for the empty one. *)
Definition dict_truthy {V} (d : gmap string V) : bool :=
  negb (bool_decide (d = ∅)).

(** [record_counts[record_id] += 1] on a [defaultdict (int)]. *)
Definition count_incr (record_id : string) (c : gmap string nat) : gmap string nat :=
  <[record_id := S (default 0%nat (c !! record_id))]> c.

Definition is_newline (c : ascii) : bool := Ascii.eqb c "010".

(** [len (line.strip ()) == 0]: the line is skipped before dispatch. *)
Definition is_blank (line : string) : bool :=
  (String.length (strip line) =? 0)%nat.

(** [line.rstrip ('\n').ljust (RECORD_LENGTH, ' ')]. *)
Definition padded (line : string) : string :=
  ljust (rstrip_by is_newline line) RECORD_LENGTH " ".

(** [line[0:2]] of the padded line. *)
Definition record_id_of (line : string) : string :=
  slice (padded line) (Some 0) (Some 2).

(** The body of [for line in f_in], one iteration. *)
Definition step (st : state) (line : string) : state :=
  let line_num' := S (line_num st) in
  if is_blank line then
    mkState (permits st) (all_fields st) (all_restrictions st)
            (current_permit_data st) line_num' (record_counts st)
  else
    let record_id := record_id_of line in
    let line := padded line in
    let record_counts' := count_incr record_id (record_counts st) in
    let skip :=
      mkState (permits st) (all_fields st) (all_restrictions st)
              (current_permit_data st) line_num' record_counts' in
    if String.eqb record_id "01" then
      mkState
        (if dict_truthy (current_permit_data st)
         then permits st ++ [current_permit_data st] else permits st)
        (all_fields st) (all_restrictions st)
        (parse_line line (RECORD_MAPS !!! "01"%string))
        line_num' record_counts'
    else if dict_truthy (current_permit_data st) then
      match RECORD_MAPS !! record_id with
      | None => skip
      | Some record_map =>
          if bool_decide (record_map = []) then skip
          else if String.eqb record_id "02" then
            let permit_master_data := parse_line line record_map in
            let permit_master_data :=
              <["DA_SURFACE_ACRES"%string :=
                  format_implied_decimal
                    (default ""%string (permit_master_data !! "DA_SURFACE_ACRES"%string)) 6]>
                permit_master_data in
            let permit_master_data :=
              <["DA_SURFACE_MILES_FROM_CITY"%string :=
                  format_implied_decimal
                    (default ""%string
                       (permit_master_data !! "DA_SURFACE_MILES_FROM_CITY"%string)) 4]>
                permit_master_data in
            mkState (permits st) (all_fields st) (all_restrictions st)
                    (permit_master_data ∪ current_permit_data st)
                    line_num' record_counts'
          else if String.eqb record_id "03" then
            let field_data := VStr <$> parse_line line record_map in
            let field_data :=
              <["PARENT_STATUS_NUMBER"%string :=
                  of_get (current_permit_data st !! "DA_STATUS_NUMBER"%string)]>
                field_data in
            mkState (permits st) (all_fields st ++ [field_data]) (all_restrictions st)
                    (current_permit_data st) line_num' record_counts'
          else if String.eqb record_id "06" || String.eqb record_id "08" then
            let restriction_data := VStr <$> parse_line line record_map in
            let restriction_data :=
              <["PARENT_STATUS_NUMBER"%string :=
                  of_get (current_permit_data st !! "DA_STATUS_NUMBER"%string)]>
                restriction_data in
            let restriction_data :=
              <["RESTRICTION_TYPE"%string :=
                  VStr (if String.eqb record_id "06" then "CANNED" else "FREE_FORM")]>
                restriction_data in
            mkState (permits st) (all_fields st) (all_restrictions st ++ [restriction_data])
                    (current_permit_data st) line_num' record_counts'
          else if String.eqb record_id "14" then
            let gis_data := parse_line line record_map in
            let current :=
              <["SURFACE_LATITUDE"%string :=
                  format_implied_decimal
                    (default ""%string (gis_data !! "SURFACE_LATITUDE"%string)) 2]>
                (current_permit_data st) in
            let current :=
              <["SURFACE_LONGITUDE"%string :=
                  format_implied_decimal
                    (default ""%string (gis_data !! "SURFACE_LONGITUDE"%string)) 3]>
                current in
            mkState (permits st) (all_fields st) (all_restrictions st)
                    current line_num' record_counts'
          else if String.eqb record_id "15" then
            let gis_data := parse_line line record_map in
            let current :=
              <["BH_LATITUDE"%string :=
                  format_implied_decimal
                    (default ""%string (gis_data !! "BH_LATITUDE"%string)) 2]>
                (current_permit_data st) in
            let current :=
              <["BH_LONGITUDE"%string :=
                  format_implied_decimal
                    (default ""%string (gis_data !! "BH_LONGITUDE"%string)) 3]>
                current in
            mkState (permits st) (all_fields st) (all_restrictions st)
                    current line_num' record_counts'
          else skip
      end
    else skip.

(** The whole loop over the lines that the file yields. *)
Definition process_lines (lines : list string) (st : state) : state :=
  fold_left step lines st.

(** After the loop: [if current_permit_data: permits.append (...)]. *)
Definition finalize (st : state) : state :=
  mkState
    (if dict_truthy (current_permit_data st)
     then permits st ++ [current_permit_data st] else permits st)
    (all_fields st) (all_restrictions st) (current_permit_data st)
    (line_num st) (record_counts st).

(** [process_file] up to the point where the three tables are written,
    on the lines of an input file that exists. *)
Definition process_file (lines : list string) : state :=
  finalize (process_lines lines init_state).

(** The tag under which the loop dispatches a line: none for a blank
    line, which is skipped before its tag is read. *)
Definition line_tag (line : string) : option string :=
  if is_blank line then None else Some (record_id_of line).

(** ** The table headers *)

(** [sorted (list (set (key for row in rows for key in row.keys ())))]:
    the keys of all rows, each once, in the order of [str] comparison. *)
Definition sorted_keys {V} (rows : list (gmap string V)) : list string :=
  merge_sort String.le (elements (⋃ (dom <$> rows) : gset string)).

(** The headers of the three tables, computed when the table has rows. *)
Definition permit_headers (st : state) : list string := sorted_keys (permits st).
Definition field_headers (st : state) : list string := sorted_keys (all_fields st).
Definition res_headers (st : state) : list string := sorted_keys (all_restrictions st).

(** ** Vocabulary of the statements *)

(** A character that the guard of [format_implied_decimal] lets
    through: a minus sign, a point, or a digit in the sense of
    [str.isdigit]. *)
Definition numeric_char (c : ascii) : bool :=
  Ascii.eqb c "-" || Ascii.eqb c "." || char_isdigit c.

(** A minus sign or a point. *)
Definition punct_char (c : ascii) : bool :=
  Ascii.eqb c "-" || Ascii.eqb c ".".

(** The strings of the specification's pass-through rule read the other
    way round: an optional leading minus sign, then ASCII digits only. *)
Definition signed_ascii_digits (raw : string) : bool :=
  all_chars is_ascii_digit
    (if startswith_char "-" raw then slice raw (Some 1) None else raw).

(** The field names of a layout, in order. *)
Definition layout_names (record_map : layout) : list string :=
  map (λ e, e.1.1) record_map.

(** One iteration of the loop of [parse_line]. *)
Definition bind_field (line : string) :=
  λ (record_data : gmap string string) '((name, start, length) : string * Z * Z),
    <[name := strip (slice line (Some start) (Some (start + length)))]> record_data.

(** The state after a line that only the counters see. *)
Definition counted (st : state) (record_id : string) : state :=
  mkState (permits st) (all_fields st) (all_restrictions st)
          (current_permit_data st) (S (line_num st))
          (count_incr record_id (record_counts st)).

(** What a run hands to the writers and to the summary, apart from
    the count of lines read. *)
Definition outputs (st : state) :=
  (permits st, all_fields st, all_restrictions st,
   current_permit_data st, record_counts st).

(** The keys of a field segment and of the two kinds of restriction
    segment. *)
Definition field_segment_keys : gset string :=
  {["PARENT_STATUS_NUMBER"%string]} ∪ list_to_set (layout_names layout_03).
Definition canned_segment_keys : gset string :=
  {["RESTRICTION_TYPE"%string; "PARENT_STATUS_NUMBER"%string]}
  ∪ list_to_set (layout_names layout_06).
Definition free_segment_keys : gset string :=
  {["RESTRICTION_TYPE"%string; "PARENT_STATUS_NUMBER"%string]}
  ∪ list_to_set (layout_names layout_08).

(** * Properties *)

(** ** Strings *)

Section StringFacts.

Lemma len_nonneg s : 0 <= len s.
Proof. unfold len. lia. Qed.

Lemma len_cons c s : len (String c s) = 1 + len s.
Proof. unfold len. simpl String.length. lia. Qed.

Lemma app_empty_l t : "" +:+ t = t.
Proof. reflexivity. Qed.

Lemma app_cons c s t : String c s +:+ t = String c (s +:+ t).
Proof. reflexivity. Qed.

Lemma len_app s t : len (s +:+ t) = len s + len t.
Proof.
  induction s as [|c s IH]; [by rewrite app_empty_l|].
  rewrite app_cons, !len_cons. lia.
Qed.

Lemma substring_zero_len n s : substring n 0 s = "".
Proof.
  revert s. induction n as [|n IH]; intros [|c s]; simpl; auto.
Qed.

Lemma substring_whole s : substring 0 (String.length s) s = s.
Proof. induction s as [|c s IH]; simpl; [done|by rewrite IH]. Qed.

(** A string is its first [n] characters followed by the rest. *)
Lemma substring_split n s :
  (n <= String.length s)%nat →
  substring 0 n s +:+ substring n (String.length s - n) s = s.
Proof.
  revert s. induction n as [|n IH]; intros s Hn.
  - rewrite substring_zero_len, Nat.sub_0_r, app_empty_l.
    apply substring_whole.
  - destruct s as [|c s]; simpl in *; [lia|].
    rewrite app_cons. f_equal. apply IH. lia.
Qed.

Lemma substring_prefix_length n s :
  (n <= String.length s)%nat → String.length (substring 0 n s) = n.
Proof.
  revert s. induction n as [|n IH]; intros s Hn.
  - by rewrite substring_zero_len.
  - destruct s as [|c s]; simpl in *; [lia|]. rewrite IH; lia.
Qed.

Lemma substring_past n m s :
  (String.length s <= n)%nat → substring n m s = "".
Proof.
  revert m s. induction n as [|n IH]; intros m s Hn.
  - destruct s; simpl in *; [|lia]. by destruct m.
  - destruct s as [|c s]; simpl in *; [done|]. apply IH. lia.
Qed.

(** [s[1:]] drops the first character. *)
Lemma slice_tail c s : slice (String c s) (Some 1) None = s.
Proof.
  unfold slice. cbn [from_option]. rewrite len_cons.
  pose proof (len_nonneg s) as Hs.
  unfold adjust_index. destruct (1 <? 0) eqn:E; [lia|].
  rewrite Z.min_l by lia.
  replace (1 + len s - 1) with (len s) by lia.
  unfold len. rewrite Nat2Z.id. change (Z.to_nat 1) with 1%nat.
  simpl. apply substring_whole.
Qed.

(** [s[:n]] and [s[n:]] for a bound inside the string. *)
Lemma slice_to s n :
  0 <= n <= len s → slice s None (Some n) = substring 0 (Z.to_nat n) s.
Proof.
  intros Hn. unfold slice. cbn [from_option]. unfold adjust_index.
  destruct (n <? 0) eqn:E; [lia|]. rewrite Z.min_l by lia.
  by rewrite Z.sub_0_r.
Qed.

Lemma slice_from s n :
  0 <= n <= len s →
  slice s (Some n) None = substring (Z.to_nat n) (String.length s - Z.to_nat n) s.
Proof.
  intros Hn. unfold slice. cbn [from_option]. unfold adjust_index.
  destruct (n <? 0) eqn:E; [lia|]. rewrite Z.min_l by lia.
  f_equal. unfold len in *. lia.
Qed.

(** [s[lo:lo+n]] for non-negative [lo] and [n]: the characters from
    [lo] up to the end of the slice or of the string, whichever comes
    first. *)
Lemma slice_window s lo n :
  0 <= lo → 0 <= n →
  slice s (Some lo) (Some (lo + n)) =
    substring (Z.to_nat lo) (Z.to_nat (Z.min (lo + n) (len s) - lo)) s.
Proof.
  intros Hlo Hn. unfold slice. cbn [from_option]. unfold adjust_index.
  destruct (lo <? 0) eqn:E1; [lia|]. destruct (lo + n <? 0) eqn:E2; [lia|].
  pose proof (len_nonneg s) as Hs.
  destruct (Z.le_gt_cases lo (len s)) as [Hle|Hgt].
  - by rewrite (Z.min_l lo) by lia.
  - rewrite (Z.min_r lo) by lia. rewrite (Z.min_r (lo + n)) by lia.
    rewrite Z.sub_diag. change (Z.to_nat 0) with 0%nat.
    rewrite substring_zero_len.
    replace (Z.to_nat (len s - lo)) with 0%nat by lia.
    by rewrite substring_zero_len.
Qed.

Lemma all_chars_app p s t :
  all_chars p (s +:+ t) = all_chars p s && all_chars p t.
Proof.
  induction s as [|c s IH]; [done|].
  rewrite app_cons. simpl. by rewrite IH, andb_assoc.
Qed.

Lemma all_chars_impl (p q : ascii → bool) s :
  (∀ c, p c = true → q c = true) → all_chars p s = true → all_chars q s = true.
Proof.
  intros Hpq. induction s as [|c s IH]; simpl; [done|].
  rewrite !andb_true_iff. intros [? ?]. auto.
Qed.

(** Deleting a character that does not occur changes nothing. *)
Lemma remove_char_absent (p : ascii → bool) c s :
  p c = false → all_chars p s = true → remove_char c s = s.
Proof.
  intros Hc. induction s as [|d s IH]; simpl; [done|].
  rewrite andb_true_iff. intros [Hd Hs].
  destruct (Ascii.eqb_spec d c) as [->|_]; [congruence|].
  by rewrite IH.
Qed.

Lemma ascii_digit_isdigit c : is_ascii_digit c = true → char_isdigit c = true.
Proof. unfold is_ascii_digit, char_isdigit. intros ->. done. Qed.

End StringFacts.

(** ** The implied-decimal normaliser *)

Section Normaliser.

Lemma isdigit_all s : isdigit s = negb (negb (truthy s)) && all_chars char_isdigit s.
Proof. by destruct s. Qed.

(** What the guard looks at: the digits test on the string without
    its minus signs and points is the [numeric_char] test on the
    string itself, apart from emptiness. *)
Lemma all_digits_removed s :
  all_chars char_isdigit (remove_char "." (remove_char "-" s))
  = all_chars numeric_char s.
Proof.
  induction s as [|c s IH]; [done|].
  cbn [remove_char all_chars]. unfold numeric_char at 1.
  destruct (Ascii.eqb_spec c "-") as [->|Hm]; [by rewrite IH|].
  cbn [remove_char].
  destruct (Ascii.eqb_spec c ".") as [->|Hp]; [by rewrite IH|].
  cbn [all_chars orb]. by rewrite IH.
Qed.

Lemma removed_of_punct s :
  all_chars punct_char s = true → remove_char "." (remove_char "-" s) = "".
Proof.
  induction s as [|c s IH]; [done|].
  cbn [remove_char all_chars]. unfold punct_char at 1.
  rewrite andb_true_iff. intros [Hc Hs].
  destruct (Ascii.eqb_spec c "-") as [->|Hm]; [auto|].
  cbn [remove_char].
  destruct (Ascii.eqb_spec c ".") as [->|Hp]; [auto|].
  done.
Qed.

(** The value of [format_implied_decimal] on a signed run of ASCII
    digits, with the two slices still as the code writes them. *)
Lemma format_implied_decimal_digits (neg : bool) (ds : string) (n : Z) :
  ds ≠ "" → all_chars is_ascii_digit ds = true →
  format_implied_decimal ((if neg then "-" else "") +:+ ds) n =
    (if neg then "-" else "") +:+
    (if len ds <=? n then ds
     else slice ds None (Some n) +:+ "." +:+ slice ds (Some n) None).
Proof.
  intros Hne Hds.
  assert (Hrm : ∀ c, is_ascii_digit c = false → remove_char c ds = ds)
    by (intros c Hc; by apply (remove_char_absent is_ascii_digit)).
  assert (Hdig : isdigit ds = true).
  { rewrite isdigit_all. destruct ds; [done|].
    apply (all_chars_impl _ _ _ ascii_digit_isdigit) in Hds.
    by rewrite Hds. }
  assert (Ht : truthy ds = true) by by destruct ds.
  assert (Hsw : startswith_char "-" ds = false).
  { destruct ds as [|d ds']; [done|]. simpl in Hds |- *.
    apply andb_true_iff in Hds as [Hd _].
    by destruct (Ascii.eqb_spec d "-") as [->|]. }
  unfold format_implied_decimal. destruct neg.
  - rewrite app_cons, app_empty_l.
    replace (remove_char "-" (String "-" ds)) with (remove_char "-" ds)
      by (cbn [remove_char]; by rewrite Ascii.eqb_refl).
    change (startswith_char "-" (String "-" ds)) with true.
    cbn [truthy negb orb]. rewrite !Hrm by done. rewrite Hdig. cbn [negb].
    by rewrite slice_tail.
  - rewrite !app_empty_l. rewrite !Hrm by done.
    by rewrite Ht, Hdig, Hsw.
Qed.

End Normaliser.

(** C1. On a string made of an optional leading minus sign and a
    non-empty run of ASCII digits, [format_implied_decimal] with a digit
    count [n] gives the string back when the run has at most [n] digits,
    and otherwise the run with one point put after its first [n] digits;
    the minus sign is put back in front exactly when the input had it. *)
Theorem format_implied_decimal_signed_digits (neg : bool) (ds : string) (n : Z) :
  0 <= n → ds ≠ "" → all_chars is_ascii_digit ds = true →
  (len ds <= n →
     format_implied_decimal ((if neg then "-" else "") +:+ ds) n
     = (if neg then "-" else "") +:+ ds)
  ∧ (n < len ds →
     ∃ int_part frac_part,
       ds = int_part +:+ frac_part ∧ len int_part = n ∧
       format_implied_decimal ((if neg then "-" else "") +:+ ds) n
       = (if neg then "-" else "") +:+ int_part +:+ "." +:+ frac_part).
Proof.
  intros Hn Hne Hds. rewrite format_implied_decimal_digits by done. split.
  - intros Hle. apply Z.leb_le in Hle. by rewrite Hle.
  - intros Hlt. assert ((len ds <=? n) = false) as -> by lia.
    rewrite slice_to, slice_from by lia.
    exists (substring 0 (Z.to_nat n) ds),
           (substring (Z.to_nat n) (String.length ds - Z.to_nat n) ds).
    unfold len in *. split_and!; [|rewrite substring_prefix_length; lia|done].
    symmetry. apply substring_split. lia.
Qed.

Lemma format_implied_decimal_signed_digits_witness :
  format_implied_decimal "-0097500" 6 = "-0097500"%string
  ∨ ∃ int_part frac_part,
      "0097500"%string = int_part +:+ frac_part ∧ len int_part = 6 ∧
      format_implied_decimal "-0097500" 6 = "-" +:+ int_part +:+ "." +:+ frac_part.
Proof.
  right.
  apply (format_implied_decimal_signed_digits true "0097500" 6);
    [lia | discriminate | reflexivity | reflexivity].
Defined.

(** The pass-through branch of the guard: [format_implied_decimal]
    gives its argument back whenever the argument is empty, or holds a
    character that is neither a minus sign, nor a point, nor a digit in
    the sense of [str.isdigit], or holds nothing but minus signs and
    points. *)
Lemma format_implied_decimal_passthrough (raw : string) (n : Z) :
  raw = "" ∨ all_chars numeric_char raw = false ∨ all_chars punct_char raw = true →
  format_implied_decimal raw n = raw.
Proof.
  intros H. unfold format_implied_decimal.
  destruct raw as [|c s]; [done|]. cbn [truthy negb orb].
  rewrite isdigit_all, all_digits_removed.
  destruct H as [H|[H|H]]; [done| |].
  - by rewrite H, andb_false_r.
  - by rewrite (removed_of_punct _ H).
Qed.

(** C2. The code departs from the pass-through rule on strings that are
    not an optional leading minus sign followed by ASCII digits but
    that its guard lets through, because the guard deletes every minus
    sign and every point before it tests for digits. A value that
    already has a point gets a second one, also with the digit counts
    that [process_file] passes, and a value with an inner minus sign
    gets a point as well; none of them is returned unchanged, and none
    of the results is the "proper float string" of the docstring. *)
Theorem format_implied_decimal_reformats_malformed :
  (signed_ascii_digits "12.5" = false
   ∧ format_implied_decimal "12.5" 1 = "1.2.5"%string
   ∧ format_implied_decimal "12.5" 1 ≠ "12.5"%string)
  ∧ (signed_ascii_digits "31.1234567" = false
     ∧ format_implied_decimal "31.1234567" 2 = "31..1234567"%string
     ∧ format_implied_decimal "31.1234567" 2 ≠ "31.1234567"%string)
  ∧ (signed_ascii_digits "1234.567" = false
     ∧ format_implied_decimal "1234.567" 6 = "1234.5.67"%string
     ∧ format_implied_decimal "1234.567" 6 ≠ "1234.567"%string)
  ∧ (signed_ascii_digits "1-2" = false
     ∧ format_implied_decimal "1-2" 1 = "1.-2"%string
     ∧ format_implied_decimal "1-2" 1 ≠ "1-2"%string).
Proof. split_and!; first [reflexivity | discriminate]. Qed.

(** C3, as the code has it: the point goes after the first six
    characters of the unsigned run, and the two pass-through vectors
    hold. *)
Theorem format_implied_decimal_vectors :
  format_implied_decimal "00150000" 6 = "001500.00"%string
  ∧ format_implied_decimal "-0097500" 6 = "-009750.0"%string
  ∧ format_implied_decimal "ABC" 6 = "ABC"%string
  ∧ format_implied_decimal "" 6 = ""%string.
Proof. split_and!; reflexivity. Qed.

(** C3, as the specification lists the vectors, fails on the first two. *)
Lemma format_implied_decimal_spec_vectors_fail :
  format_implied_decimal "00150000" 6 ≠ "001.50000"%string
  ∧ format_implied_decimal "-0097500" 6 ≠ "-0.097500"%string.
Proof. split; discriminate. Qed.

(** ** The line decoder *)

Section Decoder.

Lemma parse_line_fold line record_map :
  parse_line line record_map = fold_left (bind_field line) record_map ∅.
Proof. reflexivity. Qed.

(** A name that the layout does not list is left as it was. *)
Lemma fold_bind_other line record_map acc k :
  k ∉ layout_names record_map →
  fold_left (bind_field line) record_map acc !! k = acc !! k.
Proof.
  revert acc. induction record_map as [|[[name start] length] rest IH];
    intros acc Hk; [done|].
  cbn [layout_names map fst] in Hk. apply not_elem_of_cons in Hk as [Hne Hk].
  cbn [fold_left]. rewrite IH by done. cbn [bind_field].
  by apply lookup_insert_ne.
Qed.

Lemma parse_line_other line record_map k :
  k ∉ layout_names record_map → parse_line line record_map !! k = None.
Proof. intros Hk. rewrite parse_line_fold, fold_bind_other by done. apply lookup_empty. Qed.

(** The last entry of a name decides what the name is bound to. *)
Lemma parse_line_entry line before name start length after :
  name ∉ layout_names after →
  parse_line line (before ++ (name, start, length) :: after) !! name
  = Some (strip (slice line (Some start) (Some (start + length)))).
Proof.
  intros Hk. rewrite parse_line_fold, fold_left_app. cbn [fold_left].
  rewrite fold_bind_other by done. cbn [bind_field].
  apply lookup_insert_eq.
Qed.

Lemma parse_line_nonempty line e record_map :
  parse_line line (e :: record_map) ≠ ∅.
Proof.
  destruct (exists_last (l := e :: record_map)) as (before & [[name start] length] & ->);
    [done|].
  intros Hemp.
  pose proof (parse_line_entry line before name start length [] (not_elem_of_nil _)) as H.
  rewrite Hemp, lookup_empty in H. done.
Qed.

Lemma len_repeat_char c n : len (repeat_char c n) = Z.of_nat n.
Proof. unfold len. induction n as [|n IH]; simpl in *; lia. Qed.

(** Padding brings every line to at least the width asked for and
    leaves longer lines as they are. *)
Lemma len_ljust s width c : len (ljust s width c) = Z.max (len s) width.
Proof.
  unfold ljust. rewrite len_app, len_repeat_char.
  pose proof (len_nonneg s). lia.
Qed.

Lemma strip_empty : strip "" = "".
Proof. reflexivity. Qed.

End Decoder.

(** C4, as the code has it. [parse_line] is a total function: no slice
    can fail. On a line padded to [RECORD_LENGTH], the entry
    [(name, offset, length)] that is the last of its name in the layout
    binds [name] to the stripped characters at the positions from
    [offset] up to [offset + length] or the end of the line, whichever
    comes first; the field is empty when the padded line ends at or
    before [offset]. *)
Theorem parse_line_padded_field
    (line : string) (before after : layout) (name : string) (offset length : Z) :
  0 <= offset → 0 < length → name ∉ layout_names after →
  let line' := ljust line RECORD_LENGTH " " in
  RECORD_LENGTH <= len line'
  ∧ parse_line line' (before ++ (name, offset, length) :: after) !! name
    = Some (strip (substring (Z.to_nat offset)
                     (Z.to_nat (Z.min (offset + length) (len line') - offset)) line'))
  ∧ (len line' <= offset →
     parse_line line' (before ++ (name, offset, length) :: after) !! name = Some ""%string).
Proof.
  intros Hoff Hlen Hname line'. split_and!.
  - unfold line'. rewrite len_ljust. lia.
  - rewrite parse_line_entry by done. by rewrite slice_window by lia.
  - intros Hshort. rewrite parse_line_entry by done.
    rewrite slice_window by lia.
    rewrite substring_past; [done|]. unfold len in Hshort. lia.
Qed.

Lemma parse_line_padded_field_witness :
  let line' := ljust "0312345678" RECORD_LENGTH " " in
  RECORD_LENGTH <= len line'
  ∧ parse_line line' layout_03 !! "DA_FIELD_NUMBER"%string
    = Some (strip (substring (Z.to_nat 2)
                     (Z.to_nat (Z.min (2 + 8) (len line') - 2)) line'))
  ∧ (len line' <= 2 →
     parse_line line' layout_03 !! "DA_FIELD_NUMBER"%string = Some ""%string).
Proof.
  apply (parse_line_padded_field "0312345678" [] (tail layout_03) "DA_FIELD_NUMBER" 2 8);
    [lia | lia |].
  cbn. rewrite !not_elem_of_cons. split_and!; try discriminate. apply not_elem_of_nil.
Defined.

(** C4, as the specification words it, fails: the padded line of 510
    characters is shorter than [504 + 8], and [API_NUMBER] of the
    registered layout ['02'] is bound to the six characters that are
    there, not to the empty string. *)
Lemma parse_line_truncates_api_number :
  let line' := ljust (ljust "02" 510 "X") RECORD_LENGTH " " in
  len line' < 504 + 8
  ∧ parse_line line' layout_02 !! "API_NUMBER"%string = Some "XXXXXX"%string
  ∧ parse_line line' layout_02 !! "API_NUMBER"%string ≠ Some ""%string.
Proof.
  assert (H : parse_line (ljust (ljust "02" 510 "X") RECORD_LENGTH " ") layout_02
              !! "API_NUMBER"%string = Some "XXXXXX"%string) by (vm_compute; reflexivity).
  cbv zeta. split_and!; [vm_compute; reflexivity | exact H | rewrite H; discriminate].
Qed.

(** ** The layout registry *)

Section Registry.

Lemma RECORD_MAPS_01 : RECORD_MAPS !! "01"%string = Some layout_01.
Proof. vm_compute. reflexivity. Qed.
Lemma RECORD_MAPS_02 : RECORD_MAPS !! "02"%string = Some layout_02.
Proof. vm_compute. reflexivity. Qed.
Lemma RECORD_MAPS_03 : RECORD_MAPS !! "03"%string = Some layout_03.
Proof. vm_compute. reflexivity. Qed.
Lemma RECORD_MAPS_06 : RECORD_MAPS !! "06"%string = Some layout_06.
Proof. vm_compute. reflexivity. Qed.
Lemma RECORD_MAPS_08 : RECORD_MAPS !! "08"%string = Some layout_08.
Proof. vm_compute. reflexivity. Qed.
Lemma RECORD_MAPS_14 : RECORD_MAPS !! "14"%string = Some layout_14.
Proof. vm_compute. reflexivity. Qed.
Lemma RECORD_MAPS_15 : RECORD_MAPS !! "15"%string = Some layout_15.
Proof. vm_compute. reflexivity. Qed.

Lemma RECORD_MAPS_total_01 : RECORD_MAPS !!! "01"%string = layout_01.
Proof. vm_compute. reflexivity. Qed.

(** The keys of the registry. *)
Lemma RECORD_MAPS_keys (t : string) :
  is_Some (RECORD_MAPS !! t) ↔ t ∈ ["01"; "02"; "03"; "06"; "08"; "14"; "15"]%string.
Proof.
  rewrite <- elem_of_dom. unfold RECORD_MAPS.
  by rewrite dom_list_to_map_L, elem_of_list_to_set.
Qed.

End Registry.

(** ** One iteration of the loop *)

Section Step.

Implicit Types (st : state) (line : string).

Lemma dict_truthy_empty {V} : dict_truthy (∅ : gmap string V) = false.
Proof. unfold dict_truthy. by rewrite bool_decide_eq_true_2. Qed.

Lemma dict_truthy_true {V} (d : gmap string V) : dict_truthy d = true ↔ d ≠ ∅.
Proof.
  unfold dict_truthy. rewrite negb_true_iff, bool_decide_eq_false. done.
Qed.

Lemma dict_truthy_false {V} (d : gmap string V) : dict_truthy d = false ↔ d = ∅.
Proof.
  unfold dict_truthy. rewrite negb_false_iff, bool_decide_eq_true. done.
Qed.

Lemma line_tag_Some line t :
  line_tag line = Some t ↔ is_blank line = false ∧ record_id_of line = t.
Proof.
  unfold line_tag. destruct (is_blank line); split.
  - discriminate.
  - intros [? _]. discriminate.
  - by intros [= ->].
  - by intros [_ ->].
Qed.

Lemma line_tag_None line : line_tag line = None ↔ is_blank line = true.
Proof. unfold line_tag. by destruct (is_blank line). Qed.

Ltac open_step Htag :=
  apply line_tag_Some in Htag as [Hblank Htag];
  unfold step; rewrite Hblank; cbv zeta; rewrite Htag.

Lemma step_blank st line :
  line_tag line = None →
  step st line =
    mkState (permits st) (all_fields st) (all_restrictions st)
            (current_permit_data st) (S (line_num st)) (record_counts st).
Proof. intros H%line_tag_None. unfold step. by rewrite H. Qed.

Lemma step_parent st line :
  line_tag line = Some "01"%string →
  step st line =
    mkState
      (if dict_truthy (current_permit_data st)
       then permits st ++ [current_permit_data st] else permits st)
      (all_fields st) (all_restrictions st)
      (parse_line (padded line) layout_01)
      (S (line_num st)) (count_incr "01" (record_counts st)).
Proof.
  intros Htag. open_step Htag.
  change (String.eqb "01" "01") with true. cbv iota.
  by rewrite RECORD_MAPS_total_01.
Qed.

Lemma step_idle st line t :
  line_tag line = Some t → t ≠ "01"%string → current_permit_data st = ∅ →
  step st line = counted st t.
Proof.
  intros Htag Hne Hcur%dict_truthy_false. open_step Htag.
  apply String.eqb_neq in Hne. by rewrite Hne, Hcur.
Qed.

Lemma step_unknown st line t :
  line_tag line = Some t → RECORD_MAPS !! t = None →
  step st line = counted st t.
Proof.
  intros Htag Hnone. open_step Htag.
  destruct (String.eqb_spec t "01") as [->|_].
  { by rewrite RECORD_MAPS_01 in Hnone. }
  rewrite Hnone. by destruct (dict_truthy _).
Qed.

Lemma step_02 st line :
  line_tag line = Some "02"%string → current_permit_data st ≠ ∅ →
  step st line =
    mkState (permits st) (all_fields st) (all_restrictions st)
      (<["DA_SURFACE_MILES_FROM_CITY"%string :=
           format_implied_decimal
             (default ""%string
                (<["DA_SURFACE_ACRES"%string :=
                     format_implied_decimal
                       (default ""%string
                          (parse_line (padded line) layout_02 !! "DA_SURFACE_ACRES"%string)) 6]>
                   (parse_line (padded line) layout_02)
                 !! "DA_SURFACE_MILES_FROM_CITY"%string)) 4]>
         (<["DA_SURFACE_ACRES"%string :=
              format_implied_decimal
                (default ""%string
                   (parse_line (padded line) layout_02 !! "DA_SURFACE_ACRES"%string)) 6]>
            (parse_line (padded line) layout_02))
       ∪ current_permit_data st)
      (S (line_num st)) (count_incr "02" (record_counts st)).
Proof.
  intros Htag Hcur%dict_truthy_true. open_step Htag.
  change (String.eqb "02" "01") with false. cbv iota.
  rewrite Hcur, RECORD_MAPS_02. done.
Qed.

Lemma step_03 st line :
  line_tag line = Some "03"%string → current_permit_data st ≠ ∅ →
  step st line =
    mkState (permits st)
      (all_fields st ++
         [<["PARENT_STATUS_NUMBER"%string :=
              of_get (current_permit_data st !! "DA_STATUS_NUMBER"%string)]>
            (VStr <$> parse_line (padded line) layout_03)])
      (all_restrictions st) (current_permit_data st)
      (S (line_num st)) (count_incr "03" (record_counts st)).
Proof.
  intros Htag Hcur%dict_truthy_true. open_step Htag.
  change (String.eqb "03" "01") with false. cbv iota.
  rewrite Hcur, RECORD_MAPS_03. done.
Qed.

Lemma step_06 st line :
  line_tag line = Some "06"%string → current_permit_data st ≠ ∅ →
  step st line =
    mkState (permits st) (all_fields st)
      (all_restrictions st ++
         [<["RESTRICTION_TYPE"%string := VStr "CANNED"]>
            (<["PARENT_STATUS_NUMBER"%string :=
                 of_get (current_permit_data st !! "DA_STATUS_NUMBER"%string)]>
               (VStr <$> parse_line (padded line) layout_06))])
      (current_permit_data st)
      (S (line_num st)) (count_incr "06" (record_counts st)).
Proof.
  intros Htag Hcur%dict_truthy_true. open_step Htag.
  change (String.eqb "06" "01") with false. cbv iota.
  rewrite Hcur, RECORD_MAPS_06. done.
Qed.

Lemma step_08 st line :
  line_tag line = Some "08"%string → current_permit_data st ≠ ∅ →
  step st line =
    mkState (permits st) (all_fields st)
      (all_restrictions st ++
         [<["RESTRICTION_TYPE"%string := VStr "FREE_FORM"]>
            (<["PARENT_STATUS_NUMBER"%string :=
                 of_get (current_permit_data st !! "DA_STATUS_NUMBER"%string)]>
               (VStr <$> parse_line (padded line) layout_08))])
      (current_permit_data st)
      (S (line_num st)) (count_incr "08" (record_counts st)).
Proof.
  intros Htag Hcur%dict_truthy_true. open_step Htag.
  change (String.eqb "08" "01") with false. cbv iota.
  rewrite Hcur, RECORD_MAPS_08. done.
Qed.

Lemma step_14 st line :
  line_tag line = Some "14"%string → current_permit_data st ≠ ∅ →
  step st line =
    mkState (permits st) (all_fields st) (all_restrictions st)
      (<["SURFACE_LONGITUDE"%string :=
           format_implied_decimal
             (default ""%string
                (parse_line (padded line) layout_14 !! "SURFACE_LONGITUDE"%string)) 3]>
         (<["SURFACE_LATITUDE"%string :=
              format_implied_decimal
                (default ""%string
                   (parse_line (padded line) layout_14 !! "SURFACE_LATITUDE"%string)) 2]>
            (current_permit_data st)))
      (S (line_num st)) (count_incr "14" (record_counts st)).
Proof.
  intros Htag Hcur%dict_truthy_true. open_step Htag.
  change (String.eqb "14" "01") with false. cbv iota.
  rewrite Hcur, RECORD_MAPS_14. done.
Qed.

Lemma step_15 st line :
  line_tag line = Some "15"%string → current_permit_data st ≠ ∅ →
  step st line =
    mkState (permits st) (all_fields st) (all_restrictions st)
      (<["BH_LONGITUDE"%string :=
           format_implied_decimal
             (default ""%string
                (parse_line (padded line) layout_15 !! "BH_LONGITUDE"%string)) 3]>
         (<["BH_LATITUDE"%string :=
              format_implied_decimal
                (default ""%string
                   (parse_line (padded line) layout_15 !! "BH_LATITUDE"%string)) 2]>
            (current_permit_data st)))
      (S (line_num st)) (count_incr "15" (record_counts st)).
Proof.
  intros Htag Hcur%dict_truthy_true. open_step Htag.
  change (String.eqb "15" "01") with false. cbv iota.
  rewrite Hcur, RECORD_MAPS_15. done.
Qed.

End Step.

(** ** The loop *)

Section Loop.

Implicit Types (st : state) (line : string) (lines : list string).

Lemma layout_names_nodup_02 : NoDup (layout_names layout_02).
Proof. apply (bool_decide_unpack _). vm_compute. exact I. Qed.

Lemma status_not_in_02 : "DA_STATUS_NUMBER"%string ∉ layout_names layout_02.
Proof. apply (bool_decide_unpack _). vm_compute. exact I. Qed.

(** In a layout without repeated names every entry binds its name. *)
Lemma parse_line_nodup line (record_map : layout) name start length :
  NoDup (layout_names record_map) → (name, start, length) ∈ record_map →
  parse_line line record_map !! name
  = Some (strip (slice line (Some start) (Some (start + length)))).
Proof.
  intros Hnd Hin. apply list_elem_of_split in Hin as (before & after & ->).
  apply parse_line_entry.
  unfold layout_names in Hnd. rewrite map_app in Hnd. cbn [map fst] in Hnd.
  apply NoDup_app in Hnd as (_ & _ & Hnd). by apply NoDup_cons in Hnd as [? _].
Qed.

(** The status number that a parent-opening line decodes to. *)
Lemma parse_line_status line :
  parse_line line layout_01 !! "DA_STATUS_NUMBER"%string
  = Some (strip (slice line (Some 2) (Some (2 + 7)))).
Proof.
  apply (parse_line_entry line [("RRC_TAPE_RECORD_ID", 0, 2)]%string
           "DA_STATUS_NUMBER" 2 7 (tail (tail layout_01))).
  apply (bool_decide_unpack _). vm_compute. exact I.
Qed.

(** The field number that a ['03'] line decodes to. *)
Lemma parse_line_field_number line :
  parse_line line layout_03 !! "DA_FIELD_NUMBER"%string
  = Some (strip (slice line (Some 2) (Some (2 + 8)))).
Proof.
  apply (parse_line_entry line [] "DA_FIELD_NUMBER" 2 8 (tail layout_03)).
  apply (bool_decide_unpack _). vm_compute. exact I.
Qed.

Lemma parse_line_01_nonempty line : parse_line line layout_01 ≠ ∅.
Proof. apply parse_line_nonempty. Qed.

(** Every line is blank, or carries a tag without layout, or carries
    one of the seven registered tags. *)
Lemma line_cases line :
  line_tag line = None
  ∨ ∃ t, line_tag line = Some t
         ∧ (RECORD_MAPS !! t = None
            ∨ t ∈ ["01"; "02"; "03"; "06"; "08"; "14"; "15"]%string).
Proof.
  destruct (line_tag line) as [t|]; [right|by left].
  exists t. split; [done|].
  destruct (RECORD_MAPS !! t) as [lay|] eqn:E; [right|by left].
  apply RECORD_MAPS_keys. by rewrite E.
Qed.

Ltac tag_cases H :=
  repeat (apply elem_of_cons in H as [->|H]); [..|by apply elem_of_nil in H].

(** A line that does not open a parent leaves the finished permits
    alone, keeps the status number of the current parent, and neither
    creates nor drops a current parent. *)
Lemma step_other st line :
  line_tag line ≠ Some "01"%string →
  permits (step st line) = permits st
  ∧ current_permit_data (step st line) !! "DA_STATUS_NUMBER"%string
    = current_permit_data st !! "DA_STATUS_NUMBER"%string
  ∧ (current_permit_data (step st line) = ∅ ↔ current_permit_data st = ∅).
Proof.
  intros Hnp.
  destruct (line_cases line) as [Hb|(t & Ht & Hcase)].
  { by rewrite (step_blank _ _ Hb). }
  destruct (decide (current_permit_data st = ∅)) as [Hcur|Hcur].
  { rewrite (step_idle _ _ _ Ht); [done|congruence|done]. }
  destruct Hcase as [Hnone|Hin].
  { by rewrite (step_unknown _ _ _ Ht Hnone). }
  tag_cases Hin.
  - done.
  - rewrite (step_02 _ _ Ht Hcur). cbn [permits current_permit_data].
    split_and!; [done| |].
    + apply lookup_union_r. rewrite !lookup_insert_ne by done.
      apply parse_line_other, status_not_in_02.
    + split; [|done]. intros Hemp%map_positive_l.
      by apply insert_non_empty in Hemp.
  - by rewrite (step_03 _ _ Ht Hcur).
  - by rewrite (step_06 _ _ Ht Hcur).
  - by rewrite (step_08 _ _ Ht Hcur).
  - rewrite (step_14 _ _ Ht Hcur). cbn [permits current_permit_data].
    split_and!; [done|by rewrite !lookup_insert_ne by done|].
    split; [|done]. intros Hemp. by apply insert_non_empty in Hemp.
  - rewrite (step_15 _ _ Ht Hcur). cbn [permits current_permit_data].
    split_and!; [done|by rewrite !lookup_insert_ne by done|].
    split; [|done]. intros Hemp. by apply insert_non_empty in Hemp.
Qed.

Lemma process_lines_app lines1 lines2 st :
  process_lines (lines1 ++ lines2) st = process_lines lines2 (process_lines lines1 st).
Proof. apply fold_left_app. Qed.

Lemma process_lines_cons line lines st :
  process_lines (line :: lines) st = process_lines lines (step st line).
Proof. reflexivity. Qed.

(** The same over a run of lines none of which opens a parent. *)
Lemma process_lines_others lines st :
  Forall (λ line, line_tag line ≠ Some "01"%string) lines →
  permits (process_lines lines st) = permits st
  ∧ current_permit_data (process_lines lines st) !! "DA_STATUS_NUMBER"%string
    = current_permit_data st !! "DA_STATUS_NUMBER"%string
  ∧ (current_permit_data (process_lines lines st) = ∅ ↔ current_permit_data st = ∅).
Proof.
  intros Hall. revert st. induction Hall as [|line lines Hnp _ IH]; intros st; [done|].
  rewrite process_lines_cons.
  destruct (IH (step st line)) as (-> & -> & ->). by apply step_other.
Qed.

Lemma finalize_current st :
  current_permit_data st ≠ ∅ →
  permits (finalize st) = permits st ++ [current_permit_data st].
Proof. intros H%dict_truthy_true. unfold finalize. by rewrite H. Qed.

Lemma finalize_idle st :
  current_permit_data st = ∅ → permits (finalize st) = permits st.
Proof. intros H%dict_truthy_false. unfold finalize. by rewrite H. Qed.

(** A parent-opening line finishes whatever parent was current, just as
    the end of the input does. *)
Lemma step_parent_permits st line :
  line_tag line = Some "01"%string →
  permits (step st line) = permits (finalize st)
  ∧ current_permit_data (step st line) = parse_line (padded line) layout_01.
Proof. intros Ht. by rewrite (step_parent _ _ Ht). Qed.

(** Each parent-opening line adds one permit to the final table, and
    no other line adds any. *)
Lemma finalize_step_length st line :
  length (permits (finalize (step st line)))
  = (length (permits (finalize st))
     + if bool_decide (line_tag line = Some "01"%string) then 1 else 0)%nat.
Proof.
  case_bool_decide as Ht.
  - destruct (step_parent_permits st line Ht) as [Hp Hc].
    rewrite finalize_current by (rewrite Hc; apply parse_line_01_nonempty).
    rewrite length_app, Hp. done.
  - destruct (step_other st line Ht) as (Hp & _ & Hemp).
    destruct (decide (current_permit_data st = ∅)) as [Hcur|Hcur].
    + rewrite !finalize_idle by tauto. rewrite Hp. lia.
    + rewrite !finalize_current by tauto. rewrite !length_app, Hp. simpl. lia.
Qed.

Lemma finalize_process_length lines st :
  length (permits (finalize (process_lines lines st)))
  = (length (permits (finalize st))
     + length (filter (λ line, line_tag line = Some "01"%string) lines))%nat.
Proof.
  revert st. induction lines as [|line lines IH]; intros st.
  - simpl. lia.
  - rewrite process_lines_cons, IH, finalize_step_length, filter_cons.
    case_bool_decide; case_decide; try done; simpl; lia.
Qed.

End Loop.

(** ** The assembler *)

(** C6. A child-tag or merge-tag line that arrives while no parent is
    current adds nothing to any of the three collections and leaves the
    parent state empty, yet the occurrence count of its tag goes up by
    one. In particular, as long as no parent-opening line has been read,
    the collections stay empty and no parent is current. *)
Theorem orphan_line_only_counted (st : state) (line t : string) :
  line_tag line = Some t →
  t ∈ ["02"; "03"; "06"; "08"; "14"; "15"]%string →
  current_permit_data st = ∅ →
  (permits (step st line) = permits st
   ∧ all_fields (step st line) = all_fields st
   ∧ all_restrictions (step st line) = all_restrictions st
   ∧ current_permit_data (step st line) = ∅
   ∧ record_counts (step st line) !! t
     = Some (S (default 0%nat (record_counts st !! t)))
   ∧ ∀ t', t' ≠ t → record_counts (step st line) !! t' = record_counts st !! t')
  ∧ ∀ lines,
      Forall (λ l, line_tag l ≠ Some "01"%string) lines →
      permits (process_file lines) = []
      ∧ all_fields (process_file lines) = []
      ∧ all_restrictions (process_file lines) = []
      ∧ current_permit_data (process_file lines) = ∅.
Proof.
  intros Ht Hin Hcur. split.
  - assert (t ≠ "01"%string) as Hne.
    { intros ->. repeat (apply elem_of_cons in Hin as [?|Hin]; [done|]).
      by apply elem_of_nil in Hin. }
    rewrite (step_idle _ _ _ Ht Hne Hcur). unfold counted, count_incr.
    cbn [permits all_fields all_restrictions current_permit_data record_counts].
    split_and!; try done.
    + apply lookup_insert_eq.
    + intros t' Hne'. by apply lookup_insert_ne.
  - intros lines Hall. unfold process_file.
    assert (Hinv : ∀ st0, current_permit_data st0 = ∅ →
              permits (process_lines lines st0) = permits st0
              ∧ all_fields (process_lines lines st0) = all_fields st0
              ∧ all_restrictions (process_lines lines st0) = all_restrictions st0
              ∧ current_permit_data (process_lines lines st0) = ∅).
    { induction Hall as [|l lines Hnp _ IH]; intros st0 Hc0; [done|].
      rewrite process_lines_cons.
      assert (Hstep : permits (step st0 l) = permits st0
                ∧ all_fields (step st0 l) = all_fields st0
                ∧ all_restrictions (step st0 l) = all_restrictions st0
                ∧ current_permit_data (step st0 l) = ∅).
      { destruct (line_tag l) as [t0|] eqn:El.
        - rewrite (step_idle _ _ _ El); [done|congruence|done].
        - by rewrite (step_blank _ _ El). }
      destruct Hstep as (Hp & Hf & Hr & Hc).
      destruct (IH (step st0 l) Hc) as (-> & -> & -> & ->). done. }
    destruct (Hinv init_state eq_refl) as (Hp & Hf & Hr & Hc).
    cbn [all_fields all_restrictions current_permit_data finalize].
    rewrite finalize_idle by done. by rewrite Hp, Hf, Hr, Hc.
Qed.

Lemma orphan_line_only_counted_witness :
  (permits (step init_state "03FIELD001") = permits init_state
   ∧ all_fields (step init_state "03FIELD001") = all_fields init_state
   ∧ all_restrictions (step init_state "03FIELD001") = all_restrictions init_state
   ∧ current_permit_data (step init_state "03FIELD001") = ∅
   ∧ record_counts (step init_state "03FIELD001") !! "03"%string
     = Some (S (default 0%nat (record_counts init_state !! "03"%string)))
   ∧ ∀ t', t' ≠ "03"%string →
       record_counts (step init_state "03FIELD001") !! t'
       = record_counts init_state !! t')
  ∧ ∀ lines,
      Forall (λ l, line_tag l ≠ Some "01"%string) lines →
      permits (process_file lines) = []
      ∧ all_fields (process_file lines) = []
      ∧ all_restrictions (process_file lines) = []
      ∧ current_permit_data (process_file lines) = ∅.
Proof.
  apply (orphan_line_only_counted init_state "03FIELD001" "03");
    [reflexivity | | reflexivity].
  apply (bool_decide_unpack _). vm_compute. exact I.
Defined.

(** C9. The registry has a layout for a tag exactly when the tag is one
    of the seven registered ones. A line whose tag has no layout leaves
    the finished permits, both child collections and the current parent
    as they were; only the counters see it. *)
Theorem registry_known_tags (t : string) (st : state) (line : string) :
  (is_Some (RECORD_MAPS !! t)
   ↔ t ∈ ["01"; "02"; "03"; "06"; "08"; "14"; "15"]%string)
  ∧ (RECORD_MAPS !! t = None
     ↔ t ∉ ["01"; "02"; "03"; "06"; "08"; "14"; "15"]%string)
  ∧ (line_tag line = Some t → RECORD_MAPS !! t = None →
     permits (step st line) = permits st
     ∧ all_fields (step st line) = all_fields st
     ∧ all_restrictions (step st line) = all_restrictions st
     ∧ current_permit_data (step st line) = current_permit_data st).
Proof.
  split_and!.
  - apply RECORD_MAPS_keys.
  - rewrite <- RECORD_MAPS_keys, eq_None_not_Some. done.
  - intros Ht Hnone. by rewrite (step_unknown _ _ _ Ht Hnone).
Qed.

Lemma registry_known_tags_witness :
  let st := mkState [] [] [] {["DA_STATUS_NUMBER"%string := "1234567"%string]} 1 ∅ in
  permits (step st "99 unknown") = permits st
  ∧ all_fields (step st "99 unknown") = all_fields st
  ∧ all_restrictions (step st "99 unknown") = all_restrictions st
  ∧ current_permit_data (step st "99 unknown") = current_permit_data st.
Proof.
  intros st.
  destruct (registry_known_tags "99" st "99 unknown") as (_ & _ & H).
  apply H; reflexivity.
Defined.

(** C10. A restriction segment is appended exactly by a line of tag
    ['06'] or ['08'] read while a parent is current. It carries
    [RESTRICTION_TYPE], equal to ['CANNED'] for ['06'] and to
    ['FREE_FORM'] for ['08'], and [PARENT_STATUS_NUMBER], equal to the
    status number of the current parent. Every other line leaves the
    collection of restriction segments as it was. *)
Theorem restriction_segment_discriminator (st : state) (line : string) :
  (line_tag line = Some "06"%string → current_permit_data st ≠ ∅ →
   ∃ r, all_restrictions (step st line) = all_restrictions st ++ [r]
        ∧ r !! "RESTRICTION_TYPE"%string = Some (VStr "CANNED")
        ∧ r !! "PARENT_STATUS_NUMBER"%string
          = Some (of_get (current_permit_data st !! "DA_STATUS_NUMBER"%string)))
  ∧ (line_tag line = Some "08"%string → current_permit_data st ≠ ∅ →
     ∃ r, all_restrictions (step st line) = all_restrictions st ++ [r]
          ∧ r !! "RESTRICTION_TYPE"%string = Some (VStr "FREE_FORM")
          ∧ r !! "PARENT_STATUS_NUMBER"%string
            = Some (of_get (current_permit_data st !! "DA_STATUS_NUMBER"%string)))
  ∧ (line_tag line ≠ Some "06"%string → line_tag line ≠ Some "08"%string →
     all_restrictions (step st line) = all_restrictions st)
  ∧ (current_permit_data st = ∅ →
     all_restrictions (step st line) = all_restrictions st).
Proof.
  split_and!.
  - intros Ht Hcur. rewrite (step_06 _ _ Ht Hcur). eexists. split; [done|].
    split; [apply lookup_insert_eq|].
    rewrite lookup_insert_ne by done. apply lookup_insert_eq.
  - intros Ht Hcur. rewrite (step_08 _ _ Ht Hcur). eexists. split; [done|].
    split; [apply lookup_insert_eq|].
    rewrite lookup_insert_ne by done. apply lookup_insert_eq.
  - intros H6 H8.
    destruct (line_cases line) as [Hb|(t & Ht & Hcase)].
    { by rewrite (step_blank _ _ Hb). }
    destruct (decide (t = "01"%string)) as [->|Hne].
    { by rewrite (step_parent _ _ Ht). }
    destruct (decide (current_permit_data st = ∅)) as [Hcur|Hcur].
    { by rewrite (step_idle _ _ _ Ht Hne Hcur). }
    destruct Hcase as [Hnone|Hin].
    { by rewrite (step_unknown _ _ _ Ht Hnone). }
    repeat (apply elem_of_cons in Hin as [->|Hin]); try done.
    + by rewrite (step_02 _ _ Ht Hcur).
    + by rewrite (step_03 _ _ Ht Hcur).
    + by rewrite (step_14 _ _ Ht Hcur).
    + by rewrite (step_15 _ _ Ht Hcur).
    + by apply elem_of_nil in Hin.
  - intros Hcur.
    destruct (line_tag line) as [t|] eqn:Ht.
    + destruct (decide (t = "01"%string)) as [->|Hne].
      * by rewrite (step_parent _ _ Ht).
      * by rewrite (step_idle _ _ _ Ht Hne Hcur).
    + by rewrite (step_blank _ _ Ht).
Qed.

Lemma restriction_segment_discriminator_witness :
  let st := mkState [] [] [] {["DA_STATUS_NUMBER"%string := "1234567"%string]} 1 ∅ in
  (∃ r, all_restrictions (step st "06AABBremark") = all_restrictions st ++ [r]
        ∧ r !! "RESTRICTION_TYPE"%string = Some (VStr "CANNED")
        ∧ r !! "PARENT_STATUS_NUMBER"%string = Some (VStr "1234567"))
  ∧ (∃ r, all_restrictions (step st "08AA  remark") = all_restrictions st ++ [r]
        ∧ r !! "RESTRICTION_TYPE"%string = Some (VStr "FREE_FORM")
        ∧ r !! "PARENT_STATUS_NUMBER"%string = Some (VStr "1234567"))
  ∧ all_restrictions (step st "03FIELD001") = all_restrictions st
  ∧ all_restrictions (step init_state "06AABBremark") = all_restrictions init_state.
Proof.
  intros st.
  assert (Hcur : current_permit_data st ≠ ∅) by apply insert_non_empty.
  split_and!.
  - destruct (restriction_segment_discriminator st "06AABBremark") as (H & _).
    apply H; [reflexivity | exact Hcur].
  - destruct (restriction_segment_discriminator st "08AA  remark") as (_ & H & _).
    apply H; [reflexivity | exact Hcur].
  - destruct (restriction_segment_discriminator st "03FIELD001") as (_ & _ & H & _).
    apply H; discriminate.
  - destruct (restriction_segment_discriminator init_state "06AABBremark")
      as (_ & _ & _ & H).
    apply H. reflexivity.
Defined.

(** C7. Let the input be [before], then a parent-opening line, then
    lines none of which opens a parent. The end of the input finishes
    the parent that is then current exactly once: the permits of the
    run are those of [before] alone followed by that one record, which
    still carries the status number of its opening line; and the number
    of permits of any run is the number of its parent-opening lines. *)
Theorem end_of_input_finalizes_once (before : list string) (line : string) (after : list string) :
  line_tag line = Some "01"%string →
  Forall (λ l, line_tag l ≠ Some "01"%string) after →
  let lines := before ++ line :: after in
  let last_parent := current_permit_data (process_lines lines init_state) in
  permits (process_file lines) = permits (process_file before) ++ [last_parent]
  ∧ last_parent !! "DA_STATUS_NUMBER"%string
    = Some (strip (slice (padded line) (Some 2) (Some (2 + 7))))
  ∧ length (permits (process_file lines))
    = length (filter (λ l, line_tag l = Some "01"%string) lines).
Proof.
  intros Ht Hafter lines last_parent.
  assert (Hrun : process_lines lines init_state
                 = process_lines after (step (process_lines before init_state) line)).
  { unfold lines. by rewrite process_lines_app, process_lines_cons. }
  destruct (step_parent_permits (process_lines before init_state) line Ht) as [Hp Hc].
  destruct (process_lines_others after
              (step (process_lines before init_state) line) Hafter)
    as (Hp' & Hs' & He').
  assert (Hne : last_parent ≠ ∅).
  { unfold last_parent. rewrite Hrun, He', Hc. apply parse_line_01_nonempty. }
  split_and!.
  - unfold process_file at 1. rewrite finalize_current by done.
    fold last_parent. by rewrite Hrun, Hp', Hp.
  - unfold last_parent. rewrite Hrun, Hs', Hc. apply parse_line_status.
  - unfold process_file. rewrite finalize_process_length.
    by rewrite finalize_idle.
Qed.

Lemma end_of_input_finalizes_once_witness :
  let lines := ["011111111"; "03FIELD001"; "012222222"; "02  7654321"]%string in
  let last_parent := current_permit_data (process_lines lines init_state) in
  permits (process_file lines)
  = permits (process_file ["011111111"; "03FIELD001"]%string) ++ [last_parent]
  ∧ last_parent !! "DA_STATUS_NUMBER"%string
    = Some (strip (slice (padded "012222222") (Some 2) (Some (2 + 7))))
  ∧ length (permits (process_file lines))
    = length (filter (λ l, line_tag l = Some "01"%string) lines).
Proof.
  apply (end_of_input_finalizes_once
           ["011111111"; "03FIELD001"]%string "012222222" ["02  7654321"]%string);
    [reflexivity|].
  apply Forall_cons; split; [discriminate | apply Forall_nil_2].
Defined.

(** C8. The status number of the current parent is the one decoded from
    its opening line, whatever merge-tag, child-tag or other lines
    follow before the next parent-opening line; the record that is
    finished by the next parent-opening line, or by the end of the
    input, is that same parent. *)
Theorem status_number_is_stable (st : state) (line : string) (after : list string) :
  line_tag line = Some "01"%string →
  Forall (λ l, line_tag l ≠ Some "01"%string) after →
  let st' := process_lines (line :: after) st in
  current_permit_data st' !! "DA_STATUS_NUMBER"%string
  = Some (strip (slice (padded line) (Some 2) (Some (2 + 7))))
  ∧ permits (finalize st') = permits st' ++ [current_permit_data st']
  ∧ ∀ next, line_tag next = Some "01"%string →
      permits (step st' next) = permits st' ++ [current_permit_data st'].
Proof.
  intros Ht Hafter st'.
  destruct (step_parent_permits st line Ht) as [_ Hc].
  destruct (process_lines_others after (step st line) Hafter) as (_ & Hs & He).
  assert (Hne : current_permit_data st' ≠ ∅).
  { unfold st'. rewrite process_lines_cons, He, Hc. apply parse_line_01_nonempty. }
  split_and!.
  - unfold st'. rewrite process_lines_cons, Hs, Hc. apply parse_line_status.
  - by apply finalize_current.
  - intros next Hnext. destruct (step_parent_permits st' next Hnext) as [-> _].
    by apply finalize_current.
Qed.

Lemma status_number_is_stable_witness :
  let st' :=
    process_lines
      ["011234567"; "02  7654321"; "14 -098123456 031123456"; "03FIELD001"]%string
      init_state in
  current_permit_data st' !! "DA_STATUS_NUMBER"%string
  = Some (strip (slice (padded "011234567") (Some 2) (Some (2 + 7))))
  ∧ permits (finalize st') = permits st' ++ [current_permit_data st']
  ∧ ∀ next, line_tag next = Some "01"%string →
      permits (step st' next) = permits st' ++ [current_permit_data st'].
Proof.
  apply (status_number_is_stable init_state "011234567"
           ["02  7654321"; "14 -098123456 031123456"; "03FIELD001"]%string);
    [reflexivity|].
  repeat (apply Forall_cons; split; [discriminate|]). apply Forall_nil_2.
Defined.

(** C5. On a parent-opening line, a ['02'] line, two ['03'] lines and
    another parent-opening line, the loop finishes exactly one permit,
    the first parent: it keeps the status number of its opening line and
    holds every field of the ['02'] line, the two implied-decimal fields
    normalised. Exactly two field segments are appended, both stamped
    with that status number, and no restriction segment. The end of the
    input then finishes the second parent after the first. *)
Theorem parent_merge_two_children (l1 l2 l3 l4 l5 : string) :
  line_tag l1 = Some "01"%string → line_tag l2 = Some "02"%string →
  line_tag l3 = Some "03"%string → line_tag l4 = Some "03"%string →
  line_tag l5 = Some "01"%string →
  let st := process_lines [l1; l2; l3; l4; l5] init_state in
  let status := strip (slice (padded l1) (Some 2) (Some (2 + 7))) in
  ∃ permit field1 field2,
    permits st = [permit]
    ∧ all_fields st = [field1; field2]
    ∧ all_restrictions st = []
    ∧ permit !! "DA_STATUS_NUMBER"%string = Some status
    ∧ (∀ name start length,
         (name, start, length) ∈ layout_02 →
         permit !! name
         = Some (let raw := strip (slice (padded l2) (Some start) (Some (start + length))) in
                 if decide (name = "DA_SURFACE_ACRES"%string)
                 then format_implied_decimal raw 6
                 else if decide (name = "DA_SURFACE_MILES_FROM_CITY"%string)
                      then format_implied_decimal raw 4
                      else raw))
    ∧ field1 !! "PARENT_STATUS_NUMBER"%string = Some (VStr status)
    ∧ field2 !! "PARENT_STATUS_NUMBER"%string = Some (VStr status)
    ∧ field1 !! "DA_FIELD_NUMBER"%string
      = Some (VStr (strip (slice (padded l3) (Some 2) (Some (2 + 8)))))
    ∧ field2 !! "DA_FIELD_NUMBER"%string
      = Some (VStr (strip (slice (padded l4) (Some 2) (Some (2 + 8)))))
    ∧ permits (process_file [l1; l2; l3; l4; l5])
      = [permit; parse_line (padded l5) layout_01].
Proof.
  intros H1 H2 H3 H4 H5 st status.
  assert (Hnd := layout_names_nodup_02).
  pose (pm := parse_line (padded l2) layout_02).
  pose (pm1 := <["DA_SURFACE_ACRES"%string :=
                   format_implied_decimal
                     (default ""%string (pm !! "DA_SURFACE_ACRES"%string)) 6]> pm).
  pose (pm2 := <["DA_SURFACE_MILES_FROM_CITY"%string :=
                   format_implied_decimal
                     (default ""%string (pm1 !! "DA_SURFACE_MILES_FROM_CITY"%string)) 4]> pm1).
  pose (permit := pm2 ∪ parse_line (padded l1) layout_01).
  assert (Hpermit : permit ≠ ∅).
  { intros Hemp%map_positive_l. by apply insert_non_empty in Hemp. }
  assert (Hstatus : permit !! "DA_STATUS_NUMBER"%string = Some status).
  { unfold permit. rewrite lookup_union_r; [apply parse_line_status|].
    unfold pm2, pm1. rewrite !lookup_insert_ne by done.
    apply parse_line_other, status_not_in_02. }
  pose (child := λ l : string,
          <["PARENT_STATUS_NUMBER"%string := of_get (permit !! "DA_STATUS_NUMBER"%string)]>
            (VStr <$> parse_line (padded l) layout_03)).
  assert (Hst : ∃ counts, st = mkState [permit] [child l3; child l4] []
                             (parse_line (padded l5) layout_01) 5 counts).
  { unfold st, process_lines. cbn [fold_left].
    rewrite (step_parent _ _ H1). unfold init_state.
    cbn [permits all_fields all_restrictions current_permit_data line_num record_counts].
    rewrite dict_truthy_empty.
    rewrite (step_02 _ _ H2) by apply parse_line_01_nonempty.
    cbn [permits all_fields all_restrictions current_permit_data line_num record_counts].
    fold pm. fold pm1. fold pm2. fold permit.
    rewrite (step_03 _ _ H3) by exact Hpermit.
    cbn [permits all_fields all_restrictions current_permit_data line_num record_counts].
    rewrite (step_03 _ _ H4) by exact Hpermit.
    cbn [permits all_fields all_restrictions current_permit_data line_num record_counts].
    rewrite (step_parent _ _ H5).
    cbn [permits all_fields all_restrictions current_permit_data line_num record_counts].
    apply dict_truthy_true in Hpermit. rewrite Hpermit. eexists. reflexivity. }
  destruct Hst as [counts Hst].
  assert (Hfinal : permits (process_file [l1; l2; l3; l4; l5])
                   = [permit; parse_line (padded l5) layout_01]).
  { unfold process_file. fold st. clearbody st. subst st.
    rewrite finalize_current by apply parse_line_01_nonempty. reflexivity. }
  clearbody st. subst st.
  cbn [permits all_fields all_restrictions current_permit_data].
  assert (Hchild : ∀ l, child l !! "PARENT_STATUS_NUMBER"%string = Some (VStr status)).
  { intros l. unfold child. by rewrite lookup_insert_eq, Hstatus. }
  assert (Hnum : ∀ l, child l !! "DA_FIELD_NUMBER"%string
                      = Some (VStr (strip (slice (padded l) (Some 2) (Some (2 + 8)))))).
  { intros l. unfold child. rewrite lookup_insert_ne by discriminate.
    rewrite lookup_fmap.
    by rewrite parse_line_field_number. }
  exists permit, (child l3), (child l4).
  split; [reflexivity|]. split; [reflexivity|]. split; [reflexivity|].
  split; [exact Hstatus|].
  split;
    [|split_and!; [apply Hchild | apply Hchild | apply Hnum | apply Hnum | exact Hfinal]].
  intros name start length Hin.
  assert (Hraw := parse_line_nodup (padded l2) layout_02 name start length Hnd Hin).
  fold pm in Hraw. unfold permit.
  apply lookup_union_Some_l. unfold pm2, pm1. cbv zeta.
  destruct (decide (name = "DA_SURFACE_ACRES"%string)) as [->|Hacres].
  { rewrite lookup_insert_ne by discriminate. rewrite lookup_insert_eq.
    by rewrite Hraw. }
  destruct (decide (name = "DA_SURFACE_MILES_FROM_CITY"%string)) as [->|Hmiles].
  { rewrite lookup_insert_eq. rewrite lookup_insert_ne by discriminate.
    by rewrite Hraw. }
  rewrite !lookup_insert_ne by congruence. exact Hraw.
Qed.

Lemma parent_merge_two_children_witness :
  let l1 := "011234567"%string in
  let l2 := "02  7654321"%string in
  let l3 := "03FIELD001"%string in
  let l4 := "03FIELD002"%string in
  let l5 := "017777777"%string in
  let st := process_lines [l1; l2; l3; l4; l5] init_state in
  let status := strip (slice (padded l1) (Some 2) (Some (2 + 7))) in
  ∃ permit field1 field2,
    permits st = [permit]
    ∧ all_fields st = [field1; field2]
    ∧ all_restrictions st = []
    ∧ permit !! "DA_STATUS_NUMBER"%string = Some status
    ∧ (∀ name start length,
         (name, start, length) ∈ layout_02 →
         permit !! name
         = Some (let raw := strip (slice (padded l2) (Some start) (Some (start + length))) in
                 if decide (name = "DA_SURFACE_ACRES"%string)
                 then format_implied_decimal raw 6
                 else if decide (name = "DA_SURFACE_MILES_FROM_CITY"%string)
                      then format_implied_decimal raw 4
                      else raw))
    ∧ field1 !! "PARENT_STATUS_NUMBER"%string = Some (VStr status)
    ∧ field2 !! "PARENT_STATUS_NUMBER"%string = Some (VStr status)
    ∧ field1 !! "DA_FIELD_NUMBER"%string
      = Some (VStr (strip (slice (padded l3) (Some 2) (Some (2 + 8)))))
    ∧ field2 !! "DA_FIELD_NUMBER"%string
      = Some (VStr (strip (slice (padded l4) (Some 2) (Some (2 + 8)))))
    ∧ permits (process_file [l1; l2; l3; l4; l5])
      = [permit; parse_line (padded l5) layout_01].
Proof.
  intros l1 l2 l3 l4 l5.
  apply (parent_merge_two_children l1 l2 l3 l4 l5); reflexivity.
Defined.

(** * Further properties of the code *)

(** ** The normaliser on arbitrary strings *)

Section NormaliserMore.

Lemma adjust_index_range n i : 0 <= n → 0 <= adjust_index n i <= n.
Proof. intros Hn. unfold adjust_index. destruct (i <? 0) eqn:E; lia. Qed.

(** [s[:n] + s[n:]] is [s], whatever the bound. *)
Lemma slice_complement s n :
  slice s None (Some n) +:+ slice s (Some n) None = s.
Proof.
  unfold slice. cbn [from_option].
  pose proof (adjust_index_range (len s) n (len_nonneg s)) as Hk.
  set (k := adjust_index (len s) n) in *.
  rewrite Z.sub_0_r. change (Z.to_nat 0) with 0%nat.
  replace (Z.to_nat (len s - k)) with (String.length s - Z.to_nat k)%nat
    by (unfold len in *; lia).
  apply substring_split. unfold len in Hk. lia.
Qed.

Lemma len_slice_to s n : 0 <= n <= len s → len (slice s None (Some n)) = n.
Proof.
  intros Hn. rewrite slice_to by done. unfold len in *.
  rewrite substring_prefix_length; lia.
Qed.

Lemma startswith_char_inv c s :
  startswith_char c s = true → ∃ rest, s = String c rest.
Proof.
  destruct s as [|d rest]; [done|]. cbn [startswith_char].
  intros ->%Ascii.eqb_eq. by exists rest.
Qed.

End NormaliserMore.

(** X1. [format_implied_decimal] never drops, reorders or alters a
    character: its result is its argument, or its argument with one
    point put in somewhere. This holds for every string and every
    integer second argument, negative ones included. *)
Theorem format_implied_decimal_only_inserts (value : string) (n : Z) :
  format_implied_decimal value n = value
  ∨ ∃ a b, value = a +:+ b ∧ format_implied_decimal value n = a +:+ "." +:+ b.
Proof.
  unfold format_implied_decimal.
  destruct (negb (truthy value) || negb (isdigit _)); [by left|].
  destruct (startswith_char "-" value) eqn:Hneg.
  - apply startswith_char_inv in Hneg as [rest ->]. rewrite slice_tail.
    destruct (len rest <=? n); [by left|]. right.
    exists (String "-" (slice rest None (Some n))), (slice rest (Some n) None).
    rewrite !app_cons, app_empty_l. split; [|done].
    by rewrite slice_complement.
  - destruct (len value <=? n); [by left|]. right.
    exists (slice value None (Some n)), (slice value (Some n) None).
    by rewrite slice_complement.
Qed.

(** X2. A value with at most [n] characters comes back unchanged, whatever
    it holds. *)
Theorem format_implied_decimal_short (value : string) (n : Z) :
  len value <= n → format_implied_decimal value n = value.
Proof.
  intros Hlen. unfold format_implied_decimal.
  destruct (negb (truthy value) || negb (isdigit _)); [done|].
  destruct (startswith_char "-" value) eqn:Hneg.
  - apply startswith_char_inv in Hneg as [rest ->]. rewrite slice_tail.
    rewrite len_cons in Hlen.
    assert ((len rest <=? n) = true) as -> by lia. done.
  - assert ((len value <=? n) = true) as -> by lia. done.
Qed.

Lemma format_implied_decimal_short_witness :
  format_implied_decimal "-12.5" 6 = "-12.5"%string.
Proof. apply format_implied_decimal_short. vm_compute. discriminate. Defined.

(** X3. Where the point goes, for every string that passes the guard (so
    also one with points, inner minus signs or superscript digits in
    it): when the text after an optional leading minus sign is longer
    than [n >= 0], the point is put after its first [n] characters. *)
Theorem format_implied_decimal_point_position (neg : bool) (body : string) (n : Z) :
  isdigit (remove_char "." (remove_char "-" body)) = true →
  (neg = false → startswith_char "-" body = false) →
  0 <= n < len body →
  ∃ a b,
    body = a +:+ b ∧ len a = n
    ∧ format_implied_decimal ((if neg then "-" else "") +:+ body) n
      = (if neg then "-" else "") +:+ a +:+ "." +:+ b.
Proof.
  intros Hguard Hstart Hn.
  exists (slice body None (Some n)), (slice body (Some n) None).
  split; [by rewrite slice_complement|].
  split; [apply len_slice_to; lia|].
  assert (Hlong : (len body <=? n) = false) by lia.
  unfold format_implied_decimal. destruct neg.
  - rewrite app_cons, app_empty_l.
    replace (remove_char "-" (String "-" body)) with (remove_char "-" body)
      by (cbn [remove_char]; by rewrite Ascii.eqb_refl).
    change (startswith_char "-" (String "-" body)) with true.
    cbn [truthy negb orb]. rewrite Hguard. cbn [negb].
    by rewrite slice_tail, Hlong.
  - rewrite !app_empty_l.
    assert (truthy body = true) as -> by (destruct body; [change (len "") with 0 in Hn; lia|done]).
    by rewrite Hguard, (Hstart eq_refl), Hlong.
Qed.

Lemma format_implied_decimal_point_position_witness :
  ∃ a b,
    "0312.5"%string = a +:+ b ∧ len a = 2
    ∧ format_implied_decimal ("-" +:+ "0312.5") 2 = "-" +:+ a +:+ "." +:+ b.
Proof.
  apply (format_implied_decimal_point_position true "0312.5" 2);
    [reflexivity | discriminate | vm_compute; split; [discriminate | reflexivity]].
Defined.

(** ** The decoder on arbitrary layouts *)

Section DecoderMore.

Implicit Types (p : ascii → bool) (s t : string).

Lemma fold_bind_dom line (record_map : layout) (acc : gmap string string) :
  dom (fold_left (bind_field line) record_map acc)
  = dom acc ∪ list_to_set (layout_names record_map).
Proof.
  revert acc. induction record_map as [|[[name start] length] rest IH]; intros acc.
  - cbn. by rewrite (right_id_L ∅ (∪)).
  - cbn [fold_left layout_names map list_to_set fst]. rewrite IH. cbn [bind_field].
    rewrite dom_insert_L. fold (layout_names rest).
    by rewrite (comm_L (∪) {[name]} (dom acc)), <- (assoc_L (∪)).
Qed.

(** Whatever a decoded line binds comes from an entry of the layout. *)
Lemma fold_bind_inv line (record_map : layout) (acc : gmap string string) k v :
  fold_left (bind_field line) record_map acc !! k = Some v →
  acc !! k = Some v
  ∨ ∃ start length,
      (k, start, length) ∈ record_map
      ∧ v = strip (slice line (Some start) (Some (start + length))).
Proof.
  revert acc. induction record_map as [|[[name start] length] rest IH]; intros acc.
  - by left.
  - cbn [fold_left]. intros [Hacc|(s0 & l0 & Hin & ->)]%IH.
    + cbn [bind_field] in Hacc. apply lookup_insert_Some in Hacc as [[<- <-]|[_ ?]].
      * right. exists start, length. split; [apply list_elem_of_here|done].
      * by left.
    + right. exists s0, l0. split; [by apply list_elem_of_further|done].
Qed.

Lemma lstrip_head p s c rest : lstrip_by p s = String c rest → p c = false.
Proof.
  induction s as [|d s IH]; [done|]. cbn [lstrip_by].
  destruct (p d) eqn:Hd; [done|]. by intros [= <- _].
Qed.

Lemma rstrip_head p s c rest :
  rstrip_by p s = String c rest → ∃ s', s = String c s'.
Proof.
  destruct s as [|d s]; [done|]. cbn [rstrip_by].
  destruct (rstrip_by p s); [destruct (p d)|]; intros [= <- _]; eauto.
Qed.

Lemma rstrip_last p s init c :
  rstrip_by p s = init +:+ String c "" → p c = false.
Proof.
  revert init. induction s as [|d s IH]; intros init.
  - destruct init; discriminate.
  - cbn [rstrip_by]. destruct (rstrip_by p s) as [|e r] eqn:Hr.
    + destruct (p d) eqn:Hd; [destruct init; discriminate|].
      destruct init as [|i init]; [by intros [= <-]|].
      rewrite app_cons. intros [= _ H]. destruct init; discriminate.
    + destruct init as [|i init]; [rewrite app_empty_l; discriminate|].
      rewrite app_cons. intros [= _ H]. by apply (IH init).
Qed.

Lemma rstrip_all p s : all_chars p s = true → rstrip_by p s = "".
Proof.
  induction s as [|d s IH]; [done|]. cbn [all_chars rstrip_by].
  intros [Hd Hs]%andb_true_iff. by rewrite IH, Hd.
Qed.

Lemma lstrip_all p s : all_chars p s = true → lstrip_by p s = "".
Proof.
  induction s as [|d s IH]; [done|]. cbn [all_chars lstrip_by].
  intros [Hd Hs]%andb_true_iff. by rewrite Hd, IH.
Qed.

Lemma all_chars_repeat p c n : p c = true → all_chars p (repeat_char c n) = true.
Proof. intros Hc. induction n as [|n IH]; [done|]. cbn. by rewrite Hc, IH. Qed.

(** Trailing fill characters that [strip] drops are invisible to it. *)
Lemma rstrip_app_fill p s c n :
  p c = true → rstrip_by p (s +:+ repeat_char c n) = rstrip_by p s.
Proof.
  intros Hc. induction s as [|d s IH].
  - rewrite app_empty_l. by apply rstrip_all, all_chars_repeat.
  - rewrite app_cons. cbn [rstrip_by]. by rewrite IH.
Qed.

Lemma strip_app_fill p s c n :
  p c = true →
  rstrip_by p (lstrip_by p (s +:+ repeat_char c n)) = rstrip_by p (lstrip_by p s).
Proof.
  intros Hc. induction s as [|d s IH].
  - rewrite app_empty_l. by rewrite lstrip_all by by apply all_chars_repeat.
  - rewrite app_cons. cbn [lstrip_by]. destruct (p d); [done|].
    by rewrite <- app_cons, rstrip_app_fill.
Qed.

Lemma substring_empty a m : substring a m "" = "".
Proof. by destruct a, m. Qed.

(** A window of [s ++ t] is the window of [s] followed by what the
    window reaches of [t]. *)
Lemma substring_app a m s t :
  substring a m (s +:+ t)
  = substring a m s
    +:+ substring (a - String.length s) (m - (String.length s - a)) t.
Proof.
  revert a m. induction s as [|c s IH]; intros a m.
  - rewrite app_empty_l, substring_empty, app_empty_l. cbn [String.length].
    f_equal; lia.
  - rewrite app_cons. destruct a as [|a].
    + destruct m as [|m].
      * cbn [substring]. by rewrite substring_zero_len.
      * cbn [substring String.length]. rewrite IH, app_cons.
        do 3 f_equal; lia.
    + cbn [substring String.length]. rewrite IH. do 2 f_equal; lia.
Qed.

Lemma substring_repeat a m c n :
  ∃ k, substring a m (repeat_char c n) = repeat_char c k.
Proof.
  revert a m. induction n as [|n IH]; intros a m.
  - exists 0%nat. apply substring_empty.
  - destruct a as [|a].
    + destruct m as [|m]; [by exists 0%nat|].
      destruct (IH 0%nat m) as [k Hk]. exists (S k). cbn. by rewrite Hk.
    + cbn. apply IH.
Qed.

(** The window of a slice may be written without its clamp: a
    substring stops at the end of the string by itself. *)
Lemma substring_clamp a m s :
  substring a (Nat.min m (String.length s - a)) s = substring a m s.
Proof.
  revert a m. induction s as [|c s IH]; intros a m.
  - by rewrite !substring_empty.
  - destruct a as [|a].
    + destruct m as [|m]; [done|]. cbn [String.length substring Nat.sub Nat.min].
      f_equal. specialize (IH 0%nat m). by rewrite Nat.sub_0_r in IH.
    + cbn [String.length substring Nat.sub]. apply IH.
Qed.

Lemma slice_window_plain s lo n :
  0 <= lo → 0 <= n →
  slice s (Some lo) (Some (lo + n)) = substring (Z.to_nat lo) (Z.to_nat n) s.
Proof.
  intros Hlo Hn. rewrite slice_window by done.
  rewrite <- (substring_clamp _ (Z.to_nat n)). f_equal. unfold len. lia.
Qed.

(** A field decoded from a line with fill characters appended is the
    field decoded from the line itself. *)
Lemma strip_slice_ljust s width lo n :
  0 <= lo → 0 <= n →
  strip (slice (ljust s width " ") (Some lo) (Some (lo + n)))
  = strip (slice s (Some lo) (Some (lo + n))).
Proof.
  intros Hlo Hn. rewrite !slice_window_plain by done.
  unfold ljust. rewrite substring_app.
  destruct (substring_repeat (Z.to_nat lo - String.length s)
              (Z.to_nat n - (String.length s - Z.to_nat lo)) " "
              (Z.to_nat (width - len s))) as [k ->].
  by apply strip_app_fill.
Qed.

End DecoderMore.

Lemma parse_line_dom (line : string) (record_map : layout) :
  dom (parse_line line record_map) = list_to_set (layout_names record_map).
Proof.
  rewrite parse_line_fold, fold_bind_dom, dom_empty_L.
  by rewrite (left_id_L ∅ (∪)).
Qed.

(** X4. A decoded line binds exactly the names of its layout: each name of
    the layout is a key, and there is no other key. *)
Theorem parse_line_keys (line : string) (record_map : layout) (k : string) :
  is_Some (parse_line line record_map !! k) ↔ k ∈ layout_names record_map.
Proof.
  by rewrite <- elem_of_dom, parse_line_dom, elem_of_list_to_set.
Qed.

(** X5. No decoded field starts or ends with a white-space character. *)
Theorem parse_line_values_stripped (line : string) (record_map : layout) (name v : string) :
  parse_line line record_map !! name = Some v →
  (∀ c rest, v = String c rest → isspace c = false)
  ∧ (∀ init c, v = init +:+ String c "" → isspace c = false).
Proof.
  rewrite parse_line_fold. intros [Hemp|(start & length & _ & ->)]%fold_bind_inv.
  { by rewrite lookup_empty in Hemp. }
  unfold strip. split.
  - intros c rest Hv. destruct (rstrip_head _ _ _ _ Hv) as [s' Hs'].
    by apply lstrip_head in Hs'.
  - intros init c Hv. by apply rstrip_last in Hv.
Qed.

Lemma parse_line_values_stripped_witness :
  (∀ c rest, "JOHN DOE"%string = String c rest → isspace c = false)
  ∧ (∀ init c, "JOHN DOE"%string = init +:+ String c "" → isspace c = false).
Proof.
  apply (parse_line_values_stripped "01   JOHN DOE    "
           [("NAME", 2, 15)]%string "NAME" "JOHN DOE").
  reflexivity.
Defined.

(** X6. Padding a line with spaces changes no decoded field, for a layout
    whose offsets and lengths are not negative: the decoder gives the
    same result on the bare line. *)
Theorem parse_line_padding_invisible (line : string) (width : Z) (record_map : layout) :
  Forall (λ e, 0 <= e.1.2 ∧ 0 <= e.2) record_map →
  parse_line (ljust line width " ") record_map = parse_line line record_map.
Proof.
  intros Hall. rewrite !parse_line_fold. generalize (∅ : gmap string string).
  induction Hall as [|[[name start] length] rest [Hs Hl] _ IH]; intros acc; [done|].
  cbn [fold_left]. rewrite IH. cbn [bind_field]. cbn in Hs, Hl.
  by rewrite strip_slice_ljust by done.
Qed.

Lemma parse_line_padding_invisible_witness :
  parse_line (ljust "0212" RECORD_LENGTH " ") layout_02 = parse_line "0212" layout_02.
Proof.
  apply parse_line_padding_invisible.
  apply (bool_decide_unpack _). vm_compute. exact I.
Defined.

(** X7. A field whose offset lies at or past the end of a short line is
    decoded to the empty string, with or without padding. *)
Theorem parse_line_past_end (line : string) (width : Z)
    (before after : layout) (name : string) (offset length : Z) :
  name ∉ layout_names after → len line <= offset → 0 <= length →
  parse_line (ljust line width " ") (before ++ (name, offset, length) :: after) !! name
  = Some ""%string.
Proof.
  intros Hname Hoff Hlen. rewrite parse_line_entry by done.
  pose proof (len_nonneg line).
  rewrite strip_slice_ljust, slice_window_plain by lia.
  rewrite substring_past; [done|]. unfold len in Hoff. lia.
Qed.

Lemma parse_line_past_end_witness :
  parse_line (ljust "02  7654321" RECORD_LENGTH " ")
    ([] ++ ("DA_NEAREST_WELL", 444, 28) :: []) !! "DA_NEAREST_WELL"%string
  = Some ""%string.
Proof.
  apply (parse_line_past_end "02  7654321" RECORD_LENGTH [] [] "DA_NEAREST_WELL" 444 28);
    [apply not_elem_of_nil | vm_compute; discriminate | lia].
Defined.

(** ** The loop as a whole *)

(** Case analysis on what one iteration does: blank line, parent-opening
    line, line without current parent, line without layout, and the six
    tags that attach to the current parent. *)
Ltac step_cases st line :=
  let Hb := fresh "Hblank" in
  let t := fresh "t" in
  let Ht := fresh "Htag" in
  let Hcase := fresh "Hcase" in
  let Hne := fresh "Hne" in
  let Hcur := fresh "Hcur" in
  destruct (line_cases line) as [Hb|(t & Ht & Hcase)];
  [ rewrite (step_blank st line Hb)
  | destruct (decide (t = "01"%string)) as [->|Hne];
    [ rewrite (step_parent st line Ht)
    | destruct (decide (current_permit_data st = ∅)) as [Hcur|Hcur];
      [ rewrite (step_idle st line t Ht Hne Hcur)
      | destruct Hcase as [Hcase|Hcase];
        [ rewrite (step_unknown st line t Ht Hcase)
        | repeat (apply elem_of_cons in Hcase as [->|Hcase]);
          [ done
          | rewrite (step_02 st line Ht Hcur)
          | rewrite (step_03 st line Ht Hcur)
          | rewrite (step_06 st line Ht Hcur)
          | rewrite (step_08 st line Ht Hcur)
          | rewrite (step_14 st line Ht Hcur)
          | rewrite (step_15 st line Ht Hcur)
          | by apply elem_of_nil in Hcase ] ] ] ] ].

Section Run.

Implicit Types (st : state) (line : string) (lines : list string).

Lemma step_line_num st line : line_num (step st line) = S (line_num st).
Proof. step_cases st line; reflexivity. Qed.

Lemma step_record_counts st line :
  record_counts (step st line)
  = match line_tag line with
    | None => record_counts st
    | Some t => count_incr t (record_counts st)
    end.
Proof. step_cases st line; by rewrite ?Hblank, ?Htag. Qed.

Lemma count_incr_lookup t t' (c : gmap string nat) :
  default 0%nat (count_incr t c !! t')
  = (default 0%nat (c !! t') + if bool_decide (t = t') then 1 else 0)%nat.
Proof.
  unfold count_incr. case_bool_decide as Heq.
  - subst. rewrite lookup_insert_eq. cbn. lia.
  - rewrite lookup_insert_ne by done. lia.
Qed.

Lemma step_appends st line :
  permits st `prefix_of` permits (step st line)
  ∧ all_fields st `prefix_of` all_fields (step st line)
  ∧ all_restrictions st `prefix_of` all_restrictions (step st line).
Proof.
  step_cases st line;
    cbn [permits all_fields all_restrictions];
    split_and!; try done; try (by apply prefix_app_r).
  destruct (dict_truthy _); [by apply prefix_app_r|done].
Qed.

(** One iteration reads nothing of the state but what [outputs] shows. *)
Lemma step_outputs st st' line :
  outputs st = outputs st' → outputs (step st line) = outputs (step st' line).
Proof.
  destruct st as [p f r c n k], st' as [p' f' r' c' n' k'].
  unfold outputs at 1 2.
  cbn [permits all_fields all_restrictions current_permit_data record_counts].
  intros [= <- <- <- <- <-].
  unfold outputs, step.
  cbn [permits all_fields all_restrictions current_permit_data record_counts line_num].
  repeat case_match; reflexivity.
Qed.

Lemma step_blank_outputs st line :
  is_blank line = true → outputs (step st line) = outputs st.
Proof.
  intros Hb%line_tag_None. by rewrite (step_blank _ _ Hb).
Qed.

End Run.

(** X8. The count of lines read goes up by one for every line, blank ones
    included: a run over [lines] reports [length lines]. *)
Theorem line_num_counts_every_line (lines : list string) (st : state) :
  line_num (process_lines lines st) = (line_num st + length lines)%nat
  ∧ line_num (process_file lines) = length lines.
Proof.
  assert (H : ∀ st0, line_num (process_lines lines st0) = (line_num st0 + length lines)%nat).
  { induction lines as [|l lines IH]; intros st0; [cbn; lia|].
    rewrite process_lines_cons, IH, step_line_num. cbn [length]. lia. }
  split; [apply H|]. unfold process_file, finalize. cbn [line_num].
  by rewrite H.
Qed.

(** X9. The occurrence count of a tag is the number of non-blank lines that
    carry it, whether or not the line was used: a tag that never occurs
    has no entry, read as [0]. *)
Theorem record_counts_count_tags (lines : list string) (t : string) :
  default 0%nat (record_counts (process_file lines) !! t)
  = length (filter (λ l, line_tag l = Some t) lines).
Proof.
  unfold process_file, finalize. cbn [record_counts].
  assert (H : ∀ st, default 0%nat (record_counts (process_lines lines st) !! t)
                    = (default 0%nat (record_counts st !! t)
                       + length (filter (λ l, line_tag l = Some t) lines))%nat).
  { induction lines as [|l lines IH]; intros st; [cbn; lia|].
    rewrite process_lines_cons, IH, step_record_counts, filter_cons.
    destruct (line_tag l) as [t0|] eqn:El.
    - rewrite count_incr_lookup.
      case_bool_decide; case_decide; simplify_eq; cbn [length]; lia.
    - case_decide; [done|lia]. }
  by rewrite H.
Qed.

(** X10. The three collections are append-only: whatever a run starts with
    is still there, in place, when it ends. *)
Theorem collections_append_only (lines : list string) (st : state) :
  permits st `prefix_of` permits (process_lines lines st)
  ∧ all_fields st `prefix_of` all_fields (process_lines lines st)
  ∧ all_restrictions st `prefix_of` all_restrictions (process_lines lines st).
Proof.
  revert st. induction lines as [|l lines IH]; intros st; [done|].
  rewrite process_lines_cons.
  destruct (step_appends st l) as (Hp & Hf & Hr).
  destruct (IH (step st l)) as (Hp' & Hf' & Hr').
  split_and!; by etrans.
Qed.

(** X11. Blank lines are inert: leaving them out of the input changes
    nothing but the count of lines read. *)
Theorem blank_lines_inert (lines : list string) (st : state) :
  outputs (process_lines (filter (λ l, is_blank l = false) lines) st)
  = outputs (process_lines lines st).
Proof.
  assert (H : ∀ st1 st2, outputs st1 = outputs st2 →
              outputs (process_lines (filter (λ l, is_blank l = false) lines) st1)
              = outputs (process_lines lines st2)).
  { induction lines as [|l lines IH]; intros st1 st2 Heq; [done|].
    rewrite filter_cons, process_lines_cons. case_decide as Hb.
    - rewrite process_lines_cons. apply IH. by apply step_outputs.
    - apply IH. rewrite step_blank_outputs; [done|]. by destruct (is_blank l). }
  by apply H.
Qed.

Section Parents.

Implicit Types (st : state) (line : string) (lines : list string).

Lemma finalize_step_statuses st line :
  (λ p : gmap string string, p !! "DA_STATUS_NUMBER"%string)
    <$> permits (finalize (step st line))
  = ((λ p : gmap string string, p !! "DA_STATUS_NUMBER"%string)
       <$> permits (finalize st))
    ++ (if bool_decide (line_tag line = Some "01"%string)
        then [Some (strip (slice (padded line) (Some 2) (Some (2 + 7))))]
        else []).
Proof.
  case_bool_decide as Ht.
  - destruct (step_parent_permits st line Ht) as [Hp Hc].
    rewrite finalize_current by (rewrite Hc; apply parse_line_01_nonempty).
    rewrite fmap_app, Hp, Hc. cbn [fmap list_fmap]. by rewrite parse_line_status.
  - destruct (step_other st line Ht) as (Hp & Hs & Hemp). rewrite app_nil_r.
    destruct (decide (current_permit_data st = ∅)) as [Hcur|Hcur].
    + rewrite !finalize_idle by tauto. by rewrite Hp.
    + rewrite !finalize_current by tauto. rewrite !fmap_app, Hp.
      cbn [fmap list_fmap]. by rewrite Hs.
Qed.

(** Once a parent is current, some parent stays current. *)
Lemma step_keeps_current st line :
  current_permit_data st ≠ ∅ → current_permit_data (step st line) ≠ ∅.
Proof.
  intros Hcur. destruct (decide (line_tag line = Some "01"%string)) as [Ht|Ht].
  - destruct (step_parent_permits st line Ht) as [_ ->]. apply parse_line_01_nonempty.
  - destruct (step_other st line Ht) as (_ & _ & Hemp). tauto.
Qed.

(** A current parent always has a status number. *)
Lemma step_has_status st line :
  (current_permit_data st = ∅
   ∨ is_Some (current_permit_data st !! "DA_STATUS_NUMBER"%string)) →
  current_permit_data (step st line) = ∅
  ∨ is_Some (current_permit_data (step st line) !! "DA_STATUS_NUMBER"%string).
Proof.
  intros Hinv. destruct (decide (line_tag line = Some "01"%string)) as [Ht|Ht].
  - destruct (step_parent_permits st line Ht) as [_ ->]. right.
    by rewrite parse_line_status.
  - destruct (step_other st line Ht) as (_ & -> & ->). done.
Qed.

Lemma finalize_statuses_current st s :
  current_permit_data st !! "DA_STATUS_NUMBER"%string = Some s →
  Some s ∈ (λ p : gmap string string, p !! "DA_STATUS_NUMBER"%string)
             <$> permits (finalize st).
Proof.
  intros Hs. rewrite finalize_current.
  - rewrite fmap_app. apply elem_of_app. right. cbn. rewrite Hs. apply list_elem_of_here.
  - intros Hemp. by rewrite Hemp, lookup_empty in Hs.
Qed.

End Parents.

(** X12. The permits table has one row for each parent-opening line, in the
    order of the input, and each row carries the status number decoded
    from its opening line. *)
Theorem permits_follow_opening_lines (lines : list string) :
  (λ p : gmap string string, p !! "DA_STATUS_NUMBER"%string)
    <$> permits (process_file lines)
  = (λ l, Some (strip (slice (padded l) (Some 2) (Some (2 + 7)))))
      <$> filter (λ l, line_tag l = Some "01"%string) lines.
Proof.
  unfold process_file.
  assert (H : ∀ st,
    (λ p : gmap string string, p !! "DA_STATUS_NUMBER"%string)
      <$> permits (finalize (process_lines lines st))
    = ((λ p : gmap string string, p !! "DA_STATUS_NUMBER"%string)
         <$> permits (finalize st))
      ++ ((λ l, Some (strip (slice (padded l) (Some 2) (Some (2 + 7)))))
            <$> filter (λ l, line_tag l = Some "01"%string) lines)).
  { induction lines as [|l lines IH]; intros st.
    - cbn. by rewrite app_nil_r.
    - rewrite process_lines_cons, IH, finalize_step_statuses, filter_cons.
      rewrite <- app_assoc. f_equal.
      case_bool_decide; case_decide; done. }
  rewrite H. by rewrite finalize_idle.
Qed.

(** X13. Every child segment of a run points at a permit of that run: its
    [PARENT_STATUS_NUMBER] is a string, never [None], and some row of
    the permits table has it as [DA_STATUS_NUMBER]. *)
Theorem children_reference_permits (lines : list string) (child : gmap string pyval) :
  child ∈ all_fields (process_file lines) ++ all_restrictions (process_file lines) →
  ∃ s permit,
    child !! "PARENT_STATUS_NUMBER"%string = Some (VStr s)
    ∧ permit ∈ permits (process_file lines)
    ∧ permit !! "DA_STATUS_NUMBER"%string = Some s.
Proof.
  pose (statuses := λ st : state,
          (λ p : gmap string string, p !! "DA_STATUS_NUMBER"%string)
            <$> permits (finalize st)).
  pose (Inv := λ st : state,
          (current_permit_data st = ∅
           ∨ is_Some (current_permit_data st !! "DA_STATUS_NUMBER"%string))
          ∧ ∀ c, c ∈ all_fields st ++ all_restrictions st →
                 ∃ s, c !! "PARENT_STATUS_NUMBER"%string = Some (VStr s)
                      ∧ Some s ∈ statuses st).
  assert (Hstep : ∀ st l, Inv st → Inv (step st l)).
  { intros st l [Hcur Hch]. split; [by apply step_has_status|].
    assert (Hold : ∀ c, c ∈ all_fields st ++ all_restrictions st →
              ∃ s, c !! "PARENT_STATUS_NUMBER"%string = Some (VStr s)
                   ∧ Some s ∈ statuses (step st l)).
    { intros c [s [Hs Hin]]%Hch. exists s. split; [done|].
      unfold statuses. rewrite finalize_step_statuses. apply elem_of_app. by left. }
    assert (Hnew : ∀ c : gmap string pyval,
              current_permit_data st ≠ ∅ →
              line_tag l ≠ Some "01"%string →
              c !! "PARENT_STATUS_NUMBER"%string
              = Some (of_get (current_permit_data st !! "DA_STATUS_NUMBER"%string)) →
              ∃ s, c !! "PARENT_STATUS_NUMBER"%string = Some (VStr s)
                   ∧ Some s ∈ statuses (step st l)).
    { intros c Hne Hnp Hc. destruct Hcur as [?|[s Hs]]; [done|].
      exists s. rewrite Hc, Hs. split; [done|].
      unfold statuses. rewrite finalize_step_statuses. apply elem_of_app. left.
      by apply finalize_statuses_current. }
    intros c. revert Hold Hnew. step_cases st l;
      cbn [all_fields all_restrictions]; intros Hold Hnew Hin; try (by apply Hold).
    - rewrite <- app_assoc in Hin. apply elem_of_app in Hin as [Hin|Hin].
      { apply Hold. apply elem_of_app. by left. }
      apply elem_of_cons in Hin as [->|Hin].
      + apply Hnew; [done|by rewrite Htag|]. apply lookup_insert_eq.
      + apply Hold. apply elem_of_app. by right.
    - rewrite app_assoc in Hin. apply elem_of_app in Hin as [Hin|Hin]; [by apply Hold|].
      apply list_elem_of_singleton in Hin as ->.
      apply Hnew; [done|by rewrite Htag|].
      rewrite lookup_insert_ne by done. apply lookup_insert_eq.
    - rewrite app_assoc in Hin. apply elem_of_app in Hin as [Hin|Hin]; [by apply Hold|].
      apply list_elem_of_singleton in Hin as ->.
      apply Hnew; [done|by rewrite Htag|].
      rewrite lookup_insert_ne by done. apply lookup_insert_eq. }
  assert (Hrun : ∀ st, Inv st → Inv (process_lines lines st)).
  { induction lines as [|l lines IH]; intros st Hst; [done|].
    rewrite process_lines_cons. by apply IH, Hstep. }
  destruct (Hrun init_state) as [_ Hch].
  { split; [by left|]. intros c Hc. by apply elem_of_nil in Hc. }
  unfold process_file. cbn [finalize all_fields all_restrictions].
  intros [s [Hs Hin]]%Hch. unfold statuses in Hin.
  apply list_elem_of_fmap in Hin as (permit & Hp & Hin).
  exists s, permit. done.
Qed.

Lemma children_reference_permits_witness :
  let lines := ["011234567"; "03FIELD001"; "017777777"]%string in
  let child := default ∅ (head (all_fields (process_file lines))) in
  ∃ s permit,
    child !! "PARENT_STATUS_NUMBER"%string = Some (VStr s)
    ∧ permit ∈ permits (process_file lines)
    ∧ permit !! "DA_STATUS_NUMBER"%string = Some s.
Proof.
  intros lines child.
  apply (children_reference_permits lines child).
  assert (Hlen : length (all_fields (process_file lines)) = 1%nat)
    by (vm_compute; reflexivity).
  subst child.
  destruct (all_fields (process_file lines)) as [|c rest]; [discriminate Hlen|].
  apply elem_of_app. left. apply list_elem_of_here.
Defined.

Section Merging.

Implicit Types (st : state) (line : string) (lines : list string).

Lemma layout_names_nodup_01 : NoDup (layout_names layout_01).
Proof. apply (bool_decide_unpack _). vm_compute. exact I. Qed.

(** The names that a merge line can write: those of layout ['02'] and
    the four coordinate names. *)
Lemma root_names_not_merged :
  Forall (λ name,
            (name ∉ layout_names layout_02)
            ∧ (name ∉ ["SURFACE_LATITUDE"; "SURFACE_LONGITUDE";
                       "BH_LATITUDE"; "BH_LONGITUDE"]%string))
         (layout_names layout_01).
Proof. apply (bool_decide_unpack _). vm_compute. exact I. Qed.

(** The value that a ['02'] line leaves under a name of its layout. *)
Lemma merged_02_lookup line name start length :
  (name, start, length) ∈ layout_02 →
  (<["DA_SURFACE_MILES_FROM_CITY"%string :=
       format_implied_decimal
         (default ""%string
            (<["DA_SURFACE_ACRES"%string :=
                 format_implied_decimal
                   (default ""%string
                      (parse_line line layout_02 !! "DA_SURFACE_ACRES"%string)) 6]>
               (parse_line line layout_02)
             !! "DA_SURFACE_MILES_FROM_CITY"%string)) 4]>
     (<["DA_SURFACE_ACRES"%string :=
          format_implied_decimal
            (default ""%string
               (parse_line line layout_02 !! "DA_SURFACE_ACRES"%string)) 6]>
        (parse_line line layout_02))) !! name
  = Some (let raw := strip (slice line (Some start) (Some (start + length))) in
          if decide (name = "DA_SURFACE_ACRES"%string)
          then format_implied_decimal raw 6
          else if decide (name = "DA_SURFACE_MILES_FROM_CITY"%string)
               then format_implied_decimal raw 4
               else raw).
Proof.
  intros Hin.
  assert (Hraw := parse_line_nodup line layout_02 name start length
                    layout_names_nodup_02 Hin).
  cbv zeta.
  destruct (decide (name = "DA_SURFACE_ACRES"%string)) as [->|Hacres].
  { rewrite lookup_insert_ne by discriminate. rewrite lookup_insert_eq.
    by rewrite Hraw. }
  destruct (decide (name = "DA_SURFACE_MILES_FROM_CITY"%string)) as [->|Hmiles].
  { rewrite lookup_insert_eq. rewrite lookup_insert_ne by discriminate.
    by rewrite Hraw. }
  rewrite !lookup_insert_ne by congruence. exact Hraw.
Qed.

(** A line that does not open a parent leaves every key alone that no
    merge tag writes. *)
Lemma step_other_key st line k :
  line_tag line ≠ Some "01"%string →
  k ∉ layout_names layout_02 →
  k ∉ ["SURFACE_LATITUDE"; "SURFACE_LONGITUDE"; "BH_LATITUDE"; "BH_LONGITUDE"]%string →
  current_permit_data (step st line) !! k = current_permit_data st !! k.
Proof.
  intros Hnp H02 Hgis.
  rewrite !not_elem_of_cons in Hgis. destruct Hgis as (? & ? & ? & ? & _).
  step_cases st line; cbn [current_permit_data]; try done.
  - apply lookup_union_r.
    destruct (decide (k = "DA_SURFACE_MILES_FROM_CITY"%string)) as [->|?].
    { exfalso. apply H02. apply (bool_decide_unpack _). vm_compute. exact I. }
    destruct (decide (k = "DA_SURFACE_ACRES"%string)) as [->|?].
    { exfalso. apply H02. apply (bool_decide_unpack _). vm_compute. exact I. }
    rewrite !lookup_insert_ne by done. by apply parse_line_other.
  - by rewrite !lookup_insert_ne by done.
  - by rewrite !lookup_insert_ne by done.
Qed.

Lemma step_fields_length st line :
  current_permit_data st ≠ ∅ →
  length (all_fields (step st line))
  = (length (all_fields st)
     + (if bool_decide (line_tag line = Some "03"%string) then 1 else 0))%nat
  ∧ length (all_restrictions (step st line))
    = (length (all_restrictions st)
       + (if bool_decide (line_tag line = Some "06"%string
                          ∨ line_tag line = Some "08"%string) then 1 else 0))%nat.
Proof.
  intros Hne.
  assert (Hno : ∀ t, RECORD_MAPS !! t = None →
            t ≠ "03"%string ∧ t ≠ "06"%string ∧ t ≠ "08"%string).
  { intros t Hnone. split_and!; intros ->;
      by rewrite ?RECORD_MAPS_03, ?RECORD_MAPS_06, ?RECORD_MAPS_08 in Hnone. }
  step_cases st line; unfold counted; cbn [all_fields all_restrictions];
    rewrite ?length_app; cbn [length]; rewrite ?Hblank, ?Htag;
    try done;
    try (apply Hno in Hcase as (? & ? & ?));
    split; case_bool_decide as Hbd; try lia;
    try (exfalso; first [ by simplify_eq | destruct Hbd; by simplify_eq
                        | apply Hbd; by auto ]).
Qed.

End Merging.

Section Orphans.

(** A run with no parent-opening line, from the initial state, leaves
    the collections empty and no parent current. *)
Lemma orphan_idle_run (lines : list string) :
  Forall (λ l, line_tag l ≠ Some "01"%string) lines →
  permits (process_lines lines init_state) = []
  ∧ all_fields (process_lines lines init_state) = []
  ∧ all_restrictions (process_lines lines init_state) = []
  ∧ current_permit_data (process_lines lines init_state) = ∅.
Proof.
  intros Hall.
  assert (Hinv : ∀ st, current_permit_data st = ∅ →
            permits (process_lines lines st) = permits st
            ∧ all_fields (process_lines lines st) = all_fields st
            ∧ all_restrictions (process_lines lines st) = all_restrictions st
            ∧ current_permit_data (process_lines lines st) = ∅).
  { induction Hall as [|l lines Hnp _ IH]; intros st Hc; [done|].
    rewrite process_lines_cons.
    assert (Hstep : permits (step st l) = permits st
              ∧ all_fields (step st l) = all_fields st
              ∧ all_restrictions (step st l) = all_restrictions st
              ∧ current_permit_data (step st l) = ∅).
    { destruct (line_tag l) as [t0|] eqn:El.
      - rewrite (step_idle _ _ _ El); [done|congruence|done].
      - by rewrite (step_blank _ _ El). }
    destruct Hstep as (Hp & Hf & Hr & Hc').
    destruct (IH (step st l) Hc') as (-> & -> & -> & ->). done. }
  by apply Hinv.
Qed.

End Orphans.

(** X14. Every field decoded from the opening line of a parent is still in
    its record, unchanged, after any run of lines that do not open a
    parent: no merge tag writes a name of layout ['01']. *)
Theorem root_fields_survive
    (st : state) (line : string) (after : list string) (name : string) (start length : Z) :
  line_tag line = Some "01"%string →
  Forall (λ l, line_tag l ≠ Some "01"%string) after →
  (name, start, length) ∈ layout_01 →
  current_permit_data (process_lines (line :: after) st) !! name
  = Some (strip (slice (padded line) (Some start) (Some (start + length)))).
Proof.
  intros Ht Hafter Hin.
  assert (Hname : name ∈ layout_names layout_01).
  { apply list_elem_of_fmap. by exists (name, start, length). }
  pose proof root_names_not_merged as Hroot.
  rewrite Forall_forall in Hroot. destruct (Hroot name Hname) as [H02 Hgis].
  rewrite process_lines_cons.
  assert (Hrun : ∀ st0, current_permit_data (process_lines after st0) !! name
                        = current_permit_data st0 !! name).
  { induction Hafter as [|l after Hnp _ IH]; intros st0; [done|].
    rewrite process_lines_cons, IH. by apply step_other_key. }
  rewrite Hrun. destruct (step_parent_permits st line Ht) as [_ ->].
  apply parse_line_nodup; [apply layout_names_nodup_01|done].
Qed.

Lemma root_fields_survive_witness :
  current_permit_data
    (process_lines ("011234567  A" :: ["02  7654321"; "14 -098123456 031123456"]%string)
       init_state) !! "DA_STATUS_SEQUENCE_NUMBER"%string
  = Some (strip (slice (padded "011234567  A") (Some 9) (Some (9 + 2)))).
Proof.
  apply (root_fields_survive init_state "011234567  A"
           ["02  7654321"; "14 -098123456 031123456"]%string
           "DA_STATUS_SEQUENCE_NUMBER" 9 2);
    [reflexivity | | apply (bool_decide_unpack _); vm_compute; exact I].
  repeat (apply Forall_cons; split; [discriminate|]). apply Forall_nil_2.
Defined.

(** X15. A ['02'] line read while a parent is current overwrites: afterwards
    every name of layout ['02'] holds the value decoded from this line
    (acres and miles normalised), whatever it held before, and every
    other key of the parent is as it was. *)
Theorem merge_02_overwrites (st : state) (line : string) :
  line_tag line = Some "02"%string → current_permit_data st ≠ ∅ →
  (∀ name start length,
     (name, start, length) ∈ layout_02 →
     current_permit_data (step st line) !! name
     = Some (let raw := strip (slice (padded line) (Some start) (Some (start + length))) in
             if decide (name = "DA_SURFACE_ACRES"%string)
             then format_implied_decimal raw 6
             else if decide (name = "DA_SURFACE_MILES_FROM_CITY"%string)
                  then format_implied_decimal raw 4
                  else raw))
  ∧ (∀ k, k ∉ layout_names layout_02 →
          current_permit_data (step st line) !! k = current_permit_data st !! k).
Proof.
  intros Ht Hcur. rewrite (step_02 _ _ Ht Hcur). cbn [current_permit_data]. split.
  - intros name start length Hin. apply lookup_union_Some_l.
    by apply merged_02_lookup.
  - intros k Hk. apply lookup_union_r.
    destruct (decide (k = "DA_SURFACE_MILES_FROM_CITY"%string)) as [->|?].
    { exfalso. apply Hk. apply (bool_decide_unpack _). vm_compute. exact I. }
    destruct (decide (k = "DA_SURFACE_ACRES"%string)) as [->|?].
    { exfalso. apply Hk. apply (bool_decide_unpack _). vm_compute. exact I. }
    rewrite !lookup_insert_ne by done. by apply parse_line_other.
Qed.

Lemma merge_02_overwrites_witness :
  let st := mkState [] [] []
              {["DA_PERMIT_NUMBER"%string := "0000001"%string]} 1 ∅ in
  (∀ name start length,
     (name, start, length) ∈ layout_02 →
     current_permit_data (step st "02  7654321") !! name
     = Some (let raw := strip (slice (padded "02  7654321")
                                 (Some start) (Some (start + length))) in
             if decide (name = "DA_SURFACE_ACRES"%string)
             then format_implied_decimal raw 6
             else if decide (name = "DA_SURFACE_MILES_FROM_CITY"%string)
                  then format_implied_decimal raw 4
                  else raw))
  ∧ (∀ k, k ∉ layout_names layout_02 →
          current_permit_data (step st "02  7654321") !! k
          = current_permit_data st !! k).
Proof.
  intros st.
  apply (merge_02_overwrites st "02  7654321"); [reflexivity|].
  apply insert_non_empty.
Defined.

(** X16. From the first parent-opening line on, no child line is dropped:
    the run appends one field segment for each ['03'] line and one
    restriction segment for each ['06'] or ['08'] line that follows it. *)
Theorem children_after_first_parent_kept
    (before : list string) (line : string) (after : list string) :
  Forall (λ l, line_tag l ≠ Some "01"%string) before →
  line_tag line = Some "01"%string →
  length (all_fields (process_file (before ++ line :: after)))
  = length (filter (λ l, line_tag l = Some "03"%string) after)
  ∧ length (all_restrictions (process_file (before ++ line :: after)))
    = length (filter (λ l, line_tag l = Some "06"%string
                           ∨ line_tag l = Some "08"%string) after).
Proof.
  intros Hbefore Ht.
  destruct (orphan_idle_run before Hbefore) as (_ & Hf0 & Hr0 & _).
  unfold process_file. cbn [finalize all_fields all_restrictions].
  rewrite process_lines_app, process_lines_cons.
  set (st0 := process_lines before init_state) in *.
  assert (Hst1 : current_permit_data (step st0 line) ≠ ∅
                 ∧ all_fields (step st0 line) = []
                 ∧ all_restrictions (step st0 line) = []).
  { rewrite (step_parent _ _ Ht). cbn [current_permit_data all_fields all_restrictions].
    split_and!; [apply parse_line_01_nonempty|done|done]. }
  destruct Hst1 as (Hcur & Hf1 & Hr1).
  assert (Hrun : ∀ st, current_permit_data st ≠ ∅ →
    length (all_fields (process_lines after st))
    = (length (all_fields st)
       + length (filter (λ l, line_tag l = Some "03"%string) after))%nat
    ∧ length (all_restrictions (process_lines after st))
      = (length (all_restrictions st)
         + length (filter (λ l, line_tag l = Some "06"%string
                                ∨ line_tag l = Some "08"%string) after))%nat).
  { induction after as [|l after IH]; intros st Hst; [cbn; lia|].
    rewrite process_lines_cons, !filter_cons.
    destruct (IH (step st l) (step_keeps_current _ _ Hst)) as [-> ->].
    destruct (step_fields_length st l Hst) as [-> ->].
    split; case_bool_decide; case_decide; try done; cbn [length]; lia. }
  destruct (Hrun _ Hcur) as [-> ->]. by rewrite Hf1, Hr1.
Qed.

Lemma children_after_first_parent_kept_witness :
  length (all_fields
            (process_file (["03ORPHAN"]%string ++ "011234567"%string
                           :: ["03FIELD001"; "06AABBremark"; "03FIELD002"]%string)))
  = length (filter (λ l, line_tag l = Some "03"%string)
              ["03FIELD001"; "06AABBremark"; "03FIELD002"]%string)
  ∧ length (all_restrictions
              (process_file (["03ORPHAN"]%string ++ "011234567"%string
                             :: ["03FIELD001"; "06AABBremark"; "03FIELD002"]%string)))
    = length (filter (λ l, line_tag l = Some "06"%string
                           ∨ line_tag l = Some "08"%string)
                ["03FIELD001"; "06AABBremark"; "03FIELD002"]%string).
Proof.
  apply (children_after_first_parent_kept ["03ORPHAN"]%string "011234567"
           ["03FIELD001"; "06AABBremark"; "03FIELD002"]%string);
    [|reflexivity].
  apply Forall_cons; split; [discriminate | apply Forall_nil_2].
Defined.

(** ** The table headers *)

Section Headers.

Context {V : Type}.
Implicit Types (rows : list (gmap string V)) (row : gmap string V).

Lemma elem_of_sorted_keys rows k :
  k ∈ sorted_keys rows ↔ ∃ row, row ∈ rows ∧ is_Some (row !! k).
Proof.
  unfold sorted_keys. rewrite merge_sort_Permutation, elem_of_elements.
  rewrite elem_of_union_list. split.
  - intros (X & HX & Hk). apply list_elem_of_fmap in HX as (row & -> & Hrow).
    exists row. split; [done|]. by apply elem_of_dom.
  - intros (row & Hrow & Hk). exists (dom row). split.
    + apply list_elem_of_fmap. by exists row.
    + by apply elem_of_dom.
Qed.

(** Rows that all have the same keys give those keys as header. *)
Lemma sorted_keys_uniform rows (K : gset string) :
  rows ≠ [] → Forall (λ row, dom row = K) rows →
  sorted_keys rows = merge_sort String.le (elements K).
Proof.
  intros Hne Hall. unfold sorted_keys. do 2 f_equal.
  induction Hall as [|row rows Hrow Hall IH]; [done|].
  cbn [fmap list_fmap union_list foldr]. rewrite Hrow.
  destruct rows as [|row' rows]; [cbn; by rewrite (right_id_L ∅ (∪))|].
  cbn [fmap list_fmap union_list foldr] in IH |- *.
  rewrite IH by done. by rewrite (idemp_L (∪)).
Qed.

End Headers.

(** X17. The header of a table holds a name exactly when some row has it as
    a key, so no row has a key outside the header; it holds each name
    once, in ascending [str] order. *)
Theorem sorted_keys_union {V} (rows : list (gmap string V)) :
  (∀ k, k ∈ sorted_keys rows ↔ ∃ row, row ∈ rows ∧ is_Some (row !! k))
  ∧ NoDup (sorted_keys rows)
  ∧ StronglySorted String.le (sorted_keys rows).
Proof.
  split_and!.
  - apply elem_of_sorted_keys.
  - unfold sorted_keys. rewrite merge_sort_Permutation. apply NoDup_elements.
  - apply StronglySorted_merge_sort; apply _.
Qed.

(** X18. Every field segment of a run has the same five keys, so the header
    of the field table, when the table has rows, is always these five
    names in this order. *)
Theorem field_table_schema (lines : list string) :
  Forall (λ row, dom row = field_segment_keys) (all_fields (process_file lines))
  ∧ (all_fields (process_file lines) ≠ [] →
     field_headers (process_file lines)
     = ["DA_FIELD_APPLICATION_WELL_CODE"; "DA_FIELD_COMPLETION_DATE";
        "DA_FIELD_COMPLETION_WELL_CODE"; "DA_FIELD_NUMBER";
        "PARENT_STATUS_NUMBER"]%string).
Proof.
  assert (Hstep : ∀ st l,
            Forall (λ row, dom row = field_segment_keys) (all_fields st) →
            Forall (λ row, dom row = field_segment_keys) (all_fields (step st l))).
  { intros st l Hall. step_cases st l; unfold counted; cbn [all_fields];
      try exact Hall.
    apply Forall_app. split; [exact Hall|]. apply Forall_singleton.
    rewrite dom_insert_L, dom_fmap_L, parse_line_dom. reflexivity. }
  assert (Hrun : ∀ st,
            Forall (λ row, dom row = field_segment_keys) (all_fields st) →
            Forall (λ row, dom row = field_segment_keys)
                   (all_fields (process_lines lines st))).
  { induction lines as [|l lines IH]; intros st Hst; [exact Hst|].
    rewrite process_lines_cons. apply IH, Hstep, Hst. }
  assert (Hall : Forall (λ row, dom row = field_segment_keys)
                        (all_fields (process_file lines))).
  { unfold process_file. cbn [finalize all_fields]. apply Hrun. constructor. }
  split; [exact Hall|]. intros Hne. unfold field_headers.
  rewrite (sorted_keys_uniform _ field_segment_keys Hne Hall).
  vm_compute. reflexivity.
Qed.

Lemma field_table_schema_witness :
  field_headers (process_file ["011234567"; "03FIELD001"]%string)
  = ["DA_FIELD_APPLICATION_WELL_CODE"; "DA_FIELD_COMPLETION_DATE";
     "DA_FIELD_COMPLETION_WELL_CODE"; "DA_FIELD_NUMBER";
     "PARENT_STATUS_NUMBER"]%string.
Proof.
  destruct (field_table_schema ["011234567"; "03FIELD001"]%string) as [_ H].
  apply H.
  assert (Hlen : length (all_fields (process_file ["011234567"; "03FIELD001"]%string)) = 1%nat)
    by (vm_compute; reflexivity).
  intros Hnil. rewrite Hnil in Hlen. discriminate Hlen.
Defined.

(** X19. Every restriction segment of a run has the keys of its kind: a
    segment whose [RESTRICTION_TYPE] is ['CANNED'] has the
    discriminator, the back-reference and the fields of layout ['06'],
    and no other key; the only other segments are those whose
    [RESTRICTION_TYPE] is ['FREE_FORM'], which have the same with the
    fields of layout ['08']. The header of the restriction table
    therefore always holds [RESTRICTION_TYPE] and
    [PARENT_STATUS_NUMBER] when the table has rows. *)
Theorem restriction_table_schema (lines : list string) :
  Forall (λ row : gmap string pyval,
            (row !! "RESTRICTION_TYPE"%string = Some (VStr "CANNED")
             ∧ dom row = canned_segment_keys)
            ∨ (row !! "RESTRICTION_TYPE"%string = Some (VStr "FREE_FORM")
               ∧ dom row = free_segment_keys))
         (all_restrictions (process_file lines))
  ∧ (all_restrictions (process_file lines) ≠ [] →
     "RESTRICTION_TYPE"%string ∈ res_headers (process_file lines)
     ∧ "PARENT_STATUS_NUMBER"%string ∈ res_headers (process_file lines)).
Proof.
  pose (P := λ row : gmap string pyval,
          (row !! "RESTRICTION_TYPE"%string = Some (VStr "CANNED")
           ∧ dom row = canned_segment_keys)
          ∨ (row !! "RESTRICTION_TYPE"%string = Some (VStr "FREE_FORM")
             ∧ dom row = free_segment_keys)).
  assert (Hstep : ∀ st l, Forall P (all_restrictions st) →
                          Forall P (all_restrictions (step st l))).
  { intros st l Hall. step_cases st l; unfold counted; cbn [all_restrictions];
      try exact Hall.
    - apply Forall_app. split; [exact Hall|].
      apply Forall_singleton. left. split; [apply lookup_insert_eq|].
      rewrite !dom_insert_L, dom_fmap_L, parse_line_dom.
      unfold canned_segment_keys. rewrite (assoc_L (∪)). reflexivity.
    - apply Forall_app. split; [exact Hall|].
      apply Forall_singleton. right. split; [apply lookup_insert_eq|].
      rewrite !dom_insert_L, dom_fmap_L, parse_line_dom.
      unfold free_segment_keys. rewrite (assoc_L (∪)). reflexivity. }
  assert (Hrun : ∀ st, Forall P (all_restrictions st) →
                       Forall P (all_restrictions (process_lines lines st))).
  { induction lines as [|l lines IH]; intros st Hst; [exact Hst|].
    rewrite process_lines_cons. apply IH, Hstep, Hst. }
  assert (Hall : Forall P (all_restrictions (process_file lines))).
  { unfold process_file. cbn [finalize all_restrictions]. apply Hrun. constructor. }
  split; [exact Hall|]. intros Hne. unfold res_headers.
  destruct (all_restrictions (process_file lines)) as [|row rows]; [congruence|].
  apply Forall_cons in Hall as [Hrow _].
  assert (Hkeys : "RESTRICTION_TYPE"%string ∈ dom row
                  ∧ "PARENT_STATUS_NUMBER"%string ∈ dom row).
  { destruct Hrow as [[_ ->] | [_ ->]]; split;
      apply (bool_decide_unpack _); vm_compute; exact I. }
  destruct Hkeys as [H1 H2].
  split; apply elem_of_sorted_keys; exists row;
    (split; [apply list_elem_of_here|apply elem_of_dom; assumption]).
Qed.

Lemma restriction_table_schema_witness :
  "RESTRICTION_TYPE"%string
    ∈ res_headers (process_file ["011234567"; "08AA  note"]%string)
  ∧ "PARENT_STATUS_NUMBER"%string
    ∈ res_headers (process_file ["011234567"; "08AA  note"]%string).
Proof.
  destruct (restriction_table_schema ["011234567"; "08AA  note"]%string) as [_ H].
  apply H.
  assert (Hlen : length (all_restrictions
                           (process_file ["011234567"; "08AA  note"]%string)) = 1%nat)
    by (vm_compute; reflexivity).
  intros Hnil. rewrite Hnil in Hlen. discriminate Hlen.
Defined.

(** ** Coordinates and root fields *)

Section Coordinates.

Lemma parse_line_14 line :
  parse_line line layout_14 !! "SURFACE_LONGITUDE"%string
  = Some (strip (slice line (Some 3) (Some (3 + 12))))
  ∧ parse_line line layout_14 !! "SURFACE_LATITUDE"%string
    = Some (strip (slice line (Some 15) (Some (15 + 12)))).
Proof.
  split.
  - apply (parse_line_entry line [] "SURFACE_LONGITUDE" 3 12 (tail layout_14)).
    apply (bool_decide_unpack _). vm_compute. exact I.
  - apply (parse_line_entry line [("SURFACE_LONGITUDE", 3, 12)]%string
             "SURFACE_LATITUDE" 15 12 []).
    apply not_elem_of_nil.
Qed.

Lemma parse_line_15 line :
  parse_line line layout_15 !! "BH_LONGITUDE"%string
  = Some (strip (slice line (Some 3) (Some (3 + 12))))
  ∧ parse_line line layout_15 !! "BH_LATITUDE"%string
    = Some (strip (slice line (Some 15) (Some (15 + 12)))).
Proof.
  split.
  - apply (parse_line_entry line [] "BH_LONGITUDE" 3 12 (tail layout_15)).
    apply (bool_decide_unpack _). vm_compute. exact I.
  - apply (parse_line_entry line [("BH_LONGITUDE", 3, 12)]%string
             "BH_LATITUDE" 15 12 []).
    apply not_elem_of_nil.
Qed.

End Coordinates.

(** X20. A ['14'] line read while a parent is current stores the surface
    latitude, decoded from columns 15..26 and given two integer digits,
    and the surface longitude, decoded from columns 3..14 and given
    three; a ['15'] line does the same for the bottom-hole pair. No
    other key of the parent changes, and the decoded line itself is not
    merged. *)
Theorem gis_line_writes_coordinates (st : state) (line : string) :
  current_permit_data st ≠ ∅ →
  (line_tag line = Some "14"%string →
   current_permit_data (step st line) !! "SURFACE_LATITUDE"%string
   = Some (format_implied_decimal
             (strip (slice (padded line) (Some 15) (Some (15 + 12)))) 2)
   ∧ current_permit_data (step st line) !! "SURFACE_LONGITUDE"%string
     = Some (format_implied_decimal
               (strip (slice (padded line) (Some 3) (Some (3 + 12)))) 3)
   ∧ ∀ k, k ≠ "SURFACE_LATITUDE"%string → k ≠ "SURFACE_LONGITUDE"%string →
          current_permit_data (step st line) !! k = current_permit_data st !! k)
  ∧ (line_tag line = Some "15"%string →
     current_permit_data (step st line) !! "BH_LATITUDE"%string
     = Some (format_implied_decimal
               (strip (slice (padded line) (Some 15) (Some (15 + 12)))) 2)
     ∧ current_permit_data (step st line) !! "BH_LONGITUDE"%string
       = Some (format_implied_decimal
                 (strip (slice (padded line) (Some 3) (Some (3 + 12)))) 3)
     ∧ ∀ k, k ≠ "BH_LATITUDE"%string → k ≠ "BH_LONGITUDE"%string →
            current_permit_data (step st line) !! k = current_permit_data st !! k).
Proof.
  intros Hcur. split; intros Ht.
  - rewrite (step_14 _ _ Ht Hcur). cbn [current_permit_data].
    destruct (parse_line_14 (padded line)) as [-> ->]. cbn [default from_option].
    split_and!.
    + rewrite lookup_insert_ne by discriminate. apply lookup_insert_eq.
    + apply lookup_insert_eq.
    + intros k H1 H2. rewrite !lookup_insert_ne by congruence. reflexivity.
  - rewrite (step_15 _ _ Ht Hcur). cbn [current_permit_data].
    destruct (parse_line_15 (padded line)) as [-> ->]. cbn [default from_option].
    split_and!.
    + rewrite lookup_insert_ne by discriminate. apply lookup_insert_eq.
    + apply lookup_insert_eq.
    + intros k H1 H2. rewrite !lookup_insert_ne by congruence. reflexivity.
Qed.

Lemma gis_line_writes_coordinates_witness :
  let st := mkState [] [] [] {["DA_STATUS_NUMBER"%string := "1234567"%string]} 1 ∅ in
  let line := "14 -098123456  031123456"%string in
  current_permit_data (step st line) !! "SURFACE_LATITUDE"%string
  = Some (format_implied_decimal
            (strip (slice (padded line) (Some 15) (Some (15 + 12)))) 2)
  ∧ current_permit_data (step st line) !! "SURFACE_LONGITUDE"%string
    = Some (format_implied_decimal
              (strip (slice (padded line) (Some 3) (Some (3 + 12)))) 3)
  ∧ ∀ k, k ≠ "SURFACE_LATITUDE"%string → k ≠ "SURFACE_LONGITUDE"%string →
         current_permit_data (step st line) !! k = current_permit_data st !! k.
Proof.
  intros st line.
  destruct (gis_line_writes_coordinates st line) as [H _].
  - apply insert_non_empty.
  - apply H. reflexivity.
Defined.

(** X21. Every row of the permits table has all fourteen fields of layout
    ['01'], whatever lines followed its opening line. *)
Theorem permits_have_root_fields (lines : list string) (permit : gmap string string) (name : string) :
  permit ∈ permits (process_file lines) →
  name ∈ layout_names layout_01 →
  is_Some (permit !! name).
Proof.
  intros Hin Hname.
  pose proof root_names_not_merged as Hroot.
  rewrite Forall_forall in Hroot. destruct (Hroot name Hname) as [H02 Hgis].
  pose (Inv := λ st : state,
          (current_permit_data st = ∅ ∨ is_Some (current_permit_data st !! name))
          ∧ Forall (λ p : gmap string string, is_Some (p !! name)) (permits st)).
  assert (Hfin : ∀ st, Inv st →
            Forall (λ p : gmap string string, is_Some (p !! name)) (permits (finalize st))).
  { intros st [Hc Hp]. destruct (decide (current_permit_data st = ∅)) as [He|He].
    - rewrite finalize_idle by exact He. exact Hp.
    - rewrite finalize_current by exact He. apply Forall_app. split; [exact Hp|].
      apply Forall_singleton. destruct Hc as [Hc|Hc]; [contradiction|exact Hc]. }
  assert (Hstep : ∀ st l, Inv st → Inv (step st l)).
  { intros st l Hst.
    destruct (decide (line_tag l = Some "01"%string)) as [Ht|Ht].
    - destruct (step_parent_permits st l Ht) as [Hp Hc]. split.
      + right. rewrite Hc. apply elem_of_dom. rewrite parse_line_dom.
        apply elem_of_list_to_set. exact Hname.
      + rewrite Hp. apply Hfin, Hst.
    - destruct (step_other st l Ht) as (Hp & _ & Hemp). destruct Hst as [Hc Hps].
      split.
      + rewrite (step_other_key st l name Ht H02 Hgis). tauto.
      + rewrite Hp. exact Hps. }
  assert (Hrun : ∀ lines0 st, Inv st → Inv (process_lines lines0 st)).
  { intros lines0. induction lines0 as [|l lines0 IH]; intros st Hst; [exact Hst|].
    rewrite process_lines_cons. apply IH, Hstep, Hst. }
  assert (Hall : Forall (λ p : gmap string string, is_Some (p !! name))
                        (permits (process_file lines))).
  { apply Hfin, Hrun. split; [by left|constructor]. }
  rewrite Forall_forall in Hall. apply Hall, Hin.
Qed.

Lemma permits_have_root_fields_witness :
  let lines := ["011234567"; "02  7654321"]%string in
  let permit := default ∅ (head (permits (process_file lines))) in
  is_Some (permit !! "DA_OPERATOR_NAME"%string).
Proof.
  intros lines permit.
  apply (permits_have_root_fields lines permit "DA_OPERATOR_NAME").
  - assert (Hlen : length (permits (process_file lines)) = 1%nat)
      by (vm_compute; reflexivity).
    subst permit.
    destruct (permits (process_file lines)) as [|p rest]; [discriminate Hlen|].
    apply list_elem_of_here.
  - apply (bool_decide_unpack _). vm_compute. exact I.
Defined.
